(** * MarketView AI backend: the news API of [main.py]

    A shallow embedding of the three request handlers of [main.py]
    ([test_database], [list_news], [ingest_article]) together with the
    Python string primitives they use, followed by the properties of the
    ingestion and query mapping layer.

    Python [str] values are sequences of Unicode code points; documents are
    dictionaries from field names to values; the handlers run in a small
    state-and-exception monad over the process-wide connection handle. *)

From stdpp Require Import gmap strings list pretty.
From Stdlib Require Import ZArith NArith Lia.

Local Open Scope N_scope.

(** ** Python strings *)

(** A Python [str] is a sequence of code points.  (An abbreviation rather than a
    definition, so that the list instances apply to it unchanged.) *)
Abbreviation pystr := (list N).

(** String literals of the source are UTF-8 text; [u] decodes one into its
    code points. *)
Fixpoint utf8_decode (bs : list N) : pystr :=
  match bs with
  | [] => []
  | b0 :: r0 =>
      if b0 <? 0x80 then b0 :: utf8_decode r0
      else match r0 with
      | [] => []
      | b1 :: r1 =>
          if b0 <? 0xE0 then
            N.lor (N.shiftl (N.land b0 0x1F) 6) (N.land b1 0x3F) :: utf8_decode r1
          else match r1 with
          | [] => []
          | b2 :: r2 =>
              if b0 <? 0xF0 then
                N.lor (N.shiftl (N.land b0 0x0F) 12)
                  (N.lor (N.shiftl (N.land b1 0x3F) 6) (N.land b2 0x3F))
                :: utf8_decode r2
              else match r2 with
              | [] => []
              | b3 :: r3 =>
                  N.lor (N.shiftl (N.land b0 0x07) 18)
                    (N.lor (N.shiftl (N.land b1 0x3F) 12)
                       (N.lor (N.shiftl (N.land b2 0x3F) 6) (N.land b3 0x3F)))
                  :: utf8_decode r3
              end
          end
      end
  end.

Fixpoint bytes_of_string (s : string) : list N :=
  match s with
  | EmptyString => []
  | String a r => Ascii.N_of_ascii a :: bytes_of_string r
  end.

Definition u (s : string) : pystr := utf8_decode (bytes_of_string s).

(** [str.isspace] on one code point: the characters [str.strip()] removes. *)
Definition isspace (c : N) : bool :=
  ((0x09 <=? c) && (c <=? 0x0D)) || ((0x1C <=? c) && (c <=? 0x20))
  || (c =? 0x85) || (c =? 0xA0) || (c =? 0x1680)
  || ((0x2000 <=? c) && (c <=? 0x200A))
  || (c =? 0x2028) || (c =? 0x2029) || (c =? 0x202F) || (c =? 0x205F)
  || (c =? 0x3000).

Fixpoint lstrip (s : pystr) : pystr :=
  match s with
  | [] => []
  | c :: r => if isspace c then lstrip r else s
  end.

Definition rstrip (s : pystr) : pystr := reverse (lstrip (reverse s)).

(** [s.strip()] *)
Definition strip (s : pystr) : pystr := rstrip (lstrip s).

(** [s[:n]] for a non-negative literal [n], on a string or a list. *)
Definition slice_to {A} (n : nat) (s : list A) : list A := take n s.
Arguments slice_to : simpl never.

(** Truthiness of a [str], and [a or b] on strings. *)
Definition truthy (s : pystr) : bool :=
  match s with [] => false | _ :: _ => true end.

Definition str_or (a b : pystr) : pystr := if truthy a then a else b.

(** [o or ""] for an [Optional[str]]. *)
Definition opt_or_empty (o : option pystr) : pystr :=
  match o with
  | Some s => str_or s []
  | None => []
  end.

(** ** Values and documents *)

(** Timestamps are opaque to this layer: they are only copied. *)
Abbreviation datetime := Z.

(** The values a document field or a JSON body member holds here: [None],
    a [str], a [datetime], a list of [str]. *)
Inductive value :=
  | VNone
  | VStr (s : pystr)
  | VDate (t : datetime)
  | VList (l : list pystr).

Global Instance value_eq_dec : EqDecision value.
Proof. solve_decision. Defined.

Abbreviation dict := (gmap string value).

(** [d.get(k, default)]: the default is used only when the key is missing;
    a key bound to [None] yields [None]. *)
Definition get_or (d : dict) (k : string) (default : value) : value :=
  match d !! k with
  | Some v => v
  | None => default
  end.

(** [d.get(k)] *)
Definition get (d : dict) (k : string) : value := get_or d k VNone.

(** Storage-assigned identifiers. *)
Abbreviation ObjectId := N.

Definition hex_digit (n : N) : N :=
  if n <? 10 then 0x30 + n else 0x61 + (n - 10).

Fixpoint hex_digits (width : nat) (n : N) (acc : pystr) : pystr :=
  match width with
  | O => acc
  | S w => hex_digits w (n / 16) (hex_digit (n mod 16) :: acc)
  end.

(** [str(oid)]: 24 hexadecimal digits. *)
Definition str_oid (oid : ObjectId) : pystr := hex_digits 24 oid [].

(** A document as the store returns it: its [_id] and its other fields. *)
Record document := { _id : ObjectId; fields : dict }.

(** ** The three record shapes *)

Module RawArticle.
(** Modelled from the spec: the [RawArticle] declaration of [schemas.py],
    which is not part of the sources at hand.  "url (string, required),
    source (string), title (string), content (optional string),
    published_at (optional timestamp), ticker (optional string)". *)
Record t := {
  url : pystr;
  source : pystr;
  title : pystr;
  content : option pystr;
  published_at : option datetime;
  ticker : option pystr
}.
End RawArticle.

Module NewsArticle.
(** Modelled from the spec: the [NewsArticle] declaration of [schemas.py],
    with the fields [ingest_article] passes to its constructor. *)
Record t := {
  url : pystr;
  source : pystr;
  title_en : option pystr;
  title_ko : pystr;
  summary_ko : pystr;
  sentiment : pystr;
  published_at : option datetime;
  tags : list pystr;
  ticker : option pystr
}.
End NewsArticle.

Module NewsResponse.
(** [class NewsResponse(BaseModel)] *)
Record t := {
  id : pystr;
  source : pystr;
  title_ko : pystr;
  summary_ko : pystr;
  sentiment : pystr;
  published_at : option datetime;
  tags : option (list pystr);
  ticker : option pystr
}.
End NewsResponse.

(** ** String constants of the source *)

Definition NO_SUMMARY : pystr := Eval vm_compute in u "요약 없음".
Definition NEUTRAL : pystr := Eval vm_compute in u "neutral".
Definition OK_STATUS : pystr := Eval vm_compute in u "ok".
Definition DB_NOT_AVAILABLE : pystr := Eval vm_compute in u "Database not available".

Definition NEWS : string := "news".

(** ** Exceptions and the handler monad *)

Inductive exn :=
  | HTTPException (status_code : Z) (detail : pystr)
  | RequestValidationError  (* raised by the framework on a malformed body *)
  | ValidationError (msg : pystr)  (* raised by a model constructor *)
  | Exception (msg : pystr).  (* any other error, [str(e) = msg] *)

(** [str(e)] *)
Definition str_exn (e : exn) : pystr :=
  match e with
  | HTTPException c d => u (pretty c) ++ u ": " ++ d
  | RequestValidationError => []
  | ValidationError msg => msg
  | Exception msg => msg
  end.

Inductive outcome (A : Type) :=
  | Ok (a : A)
  | Raise (e : exn).
Arguments Ok {A} a.
Arguments Raise {A} e.

(** A computation over a state [S] that returns or raises; what it did to
    the state before raising stays done. *)
Definition M (S A : Type) : Type := S -> outcome A * S.

Definition ret {S A} (a : A) : M S A := fun s => (Ok a, s).

Definition bind {S A B} (c : M S A) (k : A -> M S B) : M S B :=
  fun s =>
    match c s with
    | (Ok a, s') => k a s'
    | (Raise e, s') => (Raise e, s')
    end.

Definition raise {S A} (e : exn) : M S A := fun s => (Raise e, s).

(** [try: c  except Exception as e: h e] *)
Definition try_except {S A} (c : M S A) (h : exn -> M S A) : M S A :=
  fun s =>
    match c s with
    | (Ok a, s') => (Ok a, s')
    | (Raise e, s') => h e s'
    end.

Definition gets {S A} (f : S -> A) : M S A := fun s => (Ok (f s), s).
Definition modify {S} (f : S -> S) : M S unit := fun s => (Ok tt, f s).
Definition lift_outcome {S A} (o : outcome A) : M S A := fun s => (o, s).

Notation "'do' x <- c ; k" := (bind c (fun x => k))
  (at level 10, x name, c at level 99, k at level 200).
Notation "c ;; k" := (bind c (fun _ => k))
  (at level 100, k at level 200, right associativity).

(** [for x in xs: results.append(f x)] *)
Fixpoint for_each {S A B} (f : A -> M S B) (xs : list A) : M S (list B) :=
  match xs with
  | [] => ret []
  | x :: r => do y <- f x; do ys <- for_each f r; ret (y :: ys)
  end.

(** The status code the framework answers with. *)
Definition http_status {A} (o : outcome A) : Z :=
  match o with
  | Ok _ => 200
  | Raise (HTTPException c _) => c
  | Raise RequestValidationError => 422
  | Raise _ => 500
  end%Z.

(** ** The document store *)

(** The database behind the connection handle: its collections in storage
    order, the next identifier it assigns, and whether the driver currently
    fails ([fault = Some msg]: every operation raises with that message). *)
Record Database := {
  colls : gmap string (list document);
  next_oid : ObjectId;
  fault : option pystr
}.

Inductive StorageCall :=
  | CreateDocument (collection_name : string) (data : NewsArticle.t)
  | GetDocuments (collection_name : string) (filter_dict : dict) (limit : Z)
  | ListCollectionNames.

(** The process: the global [db] handle ([None] when there is no
    connection), [os.environ], and the storage calls made so far. *)
Record World := {
  db : option Database;
  environ : gmap string pystr;
  calls : list StorageCall
}.

Definition set_db (d : option Database) (w : World) : World :=
  {| db := d; environ := environ w; calls := calls w |}.

(** The world after one more storage call has been recorded. *)
Definition with_call (c : StorageCall) (w : World) : World :=
  {| db := db w; environ := environ w; calls := calls w ++ [c] |}.

Definition log_call (c : StorageCall) : M World unit := modify (with_call c).

(** [os.getenv(name)] *)
Definition getenv (name : string) : M World (option pystr) :=
  gets (fun w => environ w !! name).

(** The driver raises while the database is at fault. *)
Definition driver {A} (op : Database -> A * Database) : M World A :=
  fun w =>
    match db w with
    | None => (Raise (Exception DB_NOT_AVAILABLE), w)
    | Some d =>
        match fault d with
        | Some msg => (Raise (Exception msg), w)
        | None => let '(a, d') := op d in (Ok a, set_db (Some d') w)
        end
    end.

(** [db.list_collection_names()] *)
Definition list_collection_names : M World (list pystr) :=
  log_call ListCollectionNames ;;
  driver (fun d => (u <$> (map_to_list (colls d)).*1, d)).

(** An optional field as a value: [None] is written as null. *)
Definition opt_value {A} (f : A -> value) (o : option A) : value :=
  match o with
  | Some a => f a
  | None => VNone
  end.

(** Modelled from the spec: the document [create_document] of [database.py]
    writes for a [NewsArticle] (that file is not part of the sources at
    hand): every field the constructor was given, under its own name. *)
Definition to_document (a : NewsArticle.t) : dict :=
  <["url" := VStr (NewsArticle.url a)]>
  (<["source" := VStr (NewsArticle.source a)]>
  (<["title_en" := opt_value VStr (NewsArticle.title_en a)]>
  (<["title_ko" := VStr (NewsArticle.title_ko a)]>
  (<["summary_ko" := VStr (NewsArticle.summary_ko a)]>
  (<["sentiment" := VStr (NewsArticle.sentiment a)]>
  (<["published_at" := opt_value VDate (NewsArticle.published_at a)]>
  (<["tags" := VList (NewsArticle.tags a)]>
  (<["ticker" := opt_value VStr (NewsArticle.ticker a)]> ∅)))))))).

Definition collection (d : Database) (name : string) : list document :=
  default [] (colls d !! name).

(** Modelled from the spec: [create_document] of [database.py], which is not
    part of the sources at hand.  "insert(collectionName, document) ->
    identifier: writes one document to the named collection; returns the
    storage-assigned identifier as a string; fails with StorageUnavailable if
    no connection exists, or WriteFailure on any underlying write error." *)
Definition create_document (collection_name : string) (data : NewsArticle.t)
  : M World pystr :=
  log_call (CreateDocument collection_name data) ;;
  driver (fun d =>
    let oid := next_oid d in
    let doc := {| _id := oid; fields := to_document data |} in
    (str_oid oid,
     {| colls := <[collection_name := collection d collection_name ++ [doc]]> (colls d);
        next_oid := oid + 1;
        fault := fault d |})).

(** A document matches a filter when it holds every entry of the filter. *)
Definition matches (filter_dict : dict) (doc : document) : bool :=
  bool_decide (filter_dict ⊆ fields doc).

(** Modelled from the spec: [get_documents] of [database.py], which is not
    part of the sources at hand.  "query(collectionName, filter, limit) ->
    sequence of documents: filter is a mapping of field name to exact-match
    value (empty mapping = no filtering); limit bounds the number of returned
    documents; ordering is whatever the underlying store returns; fails with
    StorageUnavailable when uninitialized, returns empty sequence on no
    matches." *)
Definition get_documents (collection_name : string) (filter_dict : dict)
    (limit : Z) : M World (list document) :=
  log_call (GetDocuments collection_name filter_dict limit) ;;
  driver (fun d =>
    (take (Z.to_nat limit)
       (List.filter (matches filter_dict) (collection d collection_name)), d)).

(** ** Model validation *)

(** The diagnostics payload of [GET /test]. *)
Module Diagnostics.
Record t := {
  backend : pystr;
  database : pystr;
  database_url : option pystr;
  database_name : option pystr;
  connection_status : pystr;
  collections : list pystr
}.
End Diagnostics.

(** The payload [ingest_article] returns: [{"id": ..., "status": ...}]. *)
Module IngestResult.
Record t := { id : pystr; status : pystr }.
End IngestResult.

Definition INVALID : exn := ValidationError (u "validation error").

(** A field declared [str]. *)
Definition as_str (v : value) : outcome pystr :=
  match v with
  | VStr s => Ok s
  | _ => Raise INVALID
  end.

(** A field declared [Optional[str]]. *)
Definition as_opt_str (v : value) : outcome (option pystr) :=
  match v with
  | VNone => Ok None
  | VStr s => Ok (Some s)
  | _ => Raise INVALID
  end.

(** A field declared [Optional[List[str]]]. *)
Definition as_opt_list (v : value) : outcome (option (list pystr)) :=
  match v with
  | VNone => Ok None
  | VList l => Ok (Some l)
  | _ => Raise INVALID
  end.

Section Handlers.

(** How the model library reads a timestamp out of a string; the handlers
    do not depend on which strings it accepts. *)
Variable parse_datetime : pystr -> option datetime.

(** A field declared [Optional[datetime]]. *)
Definition as_opt_datetime (v : value) : outcome (option datetime) :=
  match v with
  | VNone => Ok None
  | VDate t => Ok (Some t)
  | VStr s =>
      match parse_datetime s with
      | Some t => Ok (Some t)
      | None => Raise INVALID
      end
  | VList _ => Raise INVALID
  end.

(** [NewsResponse(id=..., source=..., ...)]: each argument is validated
    against the declared type of its field. *)
Definition NewsResponse_init (id source title_ko summary_ko sentiment
    published_at tags ticker : value) : outcome NewsResponse.t :=
  match as_str id, as_str source, as_str title_ko, as_str summary_ko,
        as_str sentiment, as_opt_datetime published_at, as_opt_list tags,
        as_opt_str ticker with
  | Ok i, Ok so, Ok ti, Ok su, Ok se, Ok pu, Ok ta, Ok tk =>
      Ok {| NewsResponse.id := i; NewsResponse.source := so;
            NewsResponse.title_ko := ti; NewsResponse.summary_ko := su;
            NewsResponse.sentiment := se; NewsResponse.published_at := pu;
            NewsResponse.tags := ta; NewsResponse.ticker := tk |}
  | _, _, _, _, _, _, _, _ => Raise INVALID
  end.

(** Modelled from the spec: the validation of a request body against the
    [RawArticle] declaration of [schemas.py], which is not part of the
    sources at hand: [url], [source] and [title] are strings, [url] is
    required, the other three members are optional. *)
Definition validate_RawArticle (body : dict) : outcome RawArticle.t :=
  match body !! "url", body !! "source", body !! "title" with
  | Some (VStr url), Some (VStr source), Some (VStr title) =>
      match as_opt_str (get body "content"),
            as_opt_datetime (get body "published_at"),
            as_opt_str (get body "ticker") with
      | Ok content, Ok published_at, Ok ticker =>
          Ok {| RawArticle.url := url; RawArticle.source := source;
                RawArticle.title := title; RawArticle.content := content;
                RawArticle.published_at := published_at;
                RawArticle.ticker := ticker |}
      | _, _, _ => Raise RequestValidationError
      end
  | _, _, _ => Raise RequestValidationError
  end.

(** ** [GET /api/news] *)

(** Truthiness of an [Optional[str]] parameter. *)
Definition truthy_opt (o : option pystr) : bool :=
  match o with
  | Some s => truthy s
  | None => false
  end.

(** Lines 76-80: the filter [f]. *)
Definition news_filter (sentiment ticker : option pystr) : dict :=
  let f : dict := ∅ in
  let f := match sentiment with
           | Some s => if truthy s then <["sentiment" := VStr s]> f else f
           | None => f
           end in
  let f := match ticker with
           | Some t => if truthy t then <["ticker" := VStr t]> f else f
           | None => f
           end in
  f.

(** Lines 85-94: the response built from one stored document. *)
Definition toResponse (it : document) : outcome NewsResponse.t :=
  NewsResponse_init
    (VStr (str_oid (_id it)))
    (get_or (fields it) "source" (VStr []))
    (get_or (fields it) "title_ko" (get_or (fields it) "title_en" (VStr [])))
    (get_or (fields it) "summary_ko" (VStr []))
    (get_or (fields it) "sentiment" (VStr NEUTRAL))
    (get (fields it) "published_at")
    (get_or (fields it) "tags" (VList []))
    (get (fields it) "ticker").

Definition list_news (limit : Z) (sentiment ticker : option pystr)
  : M World (list NewsResponse.t) :=
  do handle <- gets db;
  match handle with
  | None => raise (HTTPException 500 DB_NOT_AVAILABLE)
  | Some _ =>
      let f := news_filter sentiment ticker in
      do items <- get_documents NEWS f limit;
      for_each (fun it => lift_outcome (toResponse it)) items
  end.

(** ** [POST /api/ingest] *)

(** Lines 106-117: the [NewsArticle] built from the payload. *)
Definition toStoredArticle (payload : RawArticle.t) : NewsArticle.t :=
  let title_ko := RawArticle.title payload in
  {| NewsArticle.url := RawArticle.url payload;
     NewsArticle.source := RawArticle.source payload;
     NewsArticle.title_en := None;
     NewsArticle.title_ko := title_ko;
     NewsArticle.summary_ko :=
       str_or (slice_to 500 (strip (opt_or_empty (RawArticle.content payload))))
              NO_SUMMARY;
     NewsArticle.sentiment := NEUTRAL;
     NewsArticle.published_at := RawArticle.published_at payload;
     NewsArticle.tags := [];
     NewsArticle.ticker := RawArticle.ticker payload |}.

Definition ingest_article (payload : RawArticle.t) : M World IngestResult.t :=
  do handle <- gets db;
  match handle with
  | None => raise (HTTPException 500 DB_NOT_AVAILABLE)
  | Some _ =>
      let doc := toStoredArticle payload in
      do inserted_id <- create_document NEWS doc;
      ret {| IngestResult.id := inserted_id; IngestResult.status := OK_STATUS |}
  end.

(** The route as the framework serves it: the body is validated against
    [RawArticle] first, and the handler runs only on a valid payload. *)
Definition post_api_ingest (body : dict) : M World IngestResult.t :=
  do payload <- lift_outcome (validate_RawArticle body);
  ingest_article payload.

End Handlers.

(** ** [GET /test] *)

Definition RUNNING : pystr := Eval vm_compute in u "✅ Running".
Definition NOT_AVAILABLE : pystr := Eval vm_compute in u "❌ Not Available".
Definition NOT_CONNECTED : pystr := Eval vm_compute in u "Not Connected".
Definition AVAILABLE : pystr := Eval vm_compute in u "✅ Available".
Definition IS_SET : pystr := Eval vm_compute in u "✅ Set".
Definition NOT_SET : pystr := Eval vm_compute in u "❌ Not Set".
Definition CONNECTED : pystr := Eval vm_compute in u "Connected".
Definition WORKING : pystr := Eval vm_compute in u "✅ Connected & Working".
Definition CONNECTED_BUT_ERROR : pystr :=
  Eval vm_compute in u "⚠️  Connected but Error: ".
Definition NOT_INITIALIZED : pystr :=
  Eval vm_compute in u "⚠️  Available but not initialized".
Definition ERROR_PREFIX : pystr := Eval vm_compute in u "❌ Error: ".

(** The handler keeps its [response] dictionary in a local variable and
    updates it in place, so an update made before an exception survives it:
    the body of the handler runs over the world and that local. *)
Definition on_world {L A} (c : M World A) : M (World * L) A :=
  fun s => let '(o, w') := c (fst s) in (o, (w', snd s)).

Definition assign {L} (f : L -> L) : M (World * L) unit :=
  modify (fun s => (fst s, f (snd s))).

Definition set_database (v : pystr) (r : Diagnostics.t) : Diagnostics.t :=
  {| Diagnostics.backend := Diagnostics.backend r;
     Diagnostics.database := v;
     Diagnostics.database_url := Diagnostics.database_url r;
     Diagnostics.database_name := Diagnostics.database_name r;
     Diagnostics.connection_status := Diagnostics.connection_status r;
     Diagnostics.collections := Diagnostics.collections r |}.

Definition set_database_url (v : option pystr) (r : Diagnostics.t) : Diagnostics.t :=
  {| Diagnostics.backend := Diagnostics.backend r;
     Diagnostics.database := Diagnostics.database r;
     Diagnostics.database_url := v;
     Diagnostics.database_name := Diagnostics.database_name r;
     Diagnostics.connection_status := Diagnostics.connection_status r;
     Diagnostics.collections := Diagnostics.collections r |}.

Definition set_database_name (v : option pystr) (r : Diagnostics.t) : Diagnostics.t :=
  {| Diagnostics.backend := Diagnostics.backend r;
     Diagnostics.database := Diagnostics.database r;
     Diagnostics.database_url := Diagnostics.database_url r;
     Diagnostics.database_name := v;
     Diagnostics.connection_status := Diagnostics.connection_status r;
     Diagnostics.collections := Diagnostics.collections r |}.

Definition set_connection_status (v : pystr) (r : Diagnostics.t) : Diagnostics.t :=
  {| Diagnostics.backend := Diagnostics.backend r;
     Diagnostics.database := Diagnostics.database r;
     Diagnostics.database_url := Diagnostics.database_url r;
     Diagnostics.database_name := Diagnostics.database_name r;
     Diagnostics.connection_status := v;
     Diagnostics.collections := Diagnostics.collections r |}.

Definition set_collections (v : list pystr) (r : Diagnostics.t) : Diagnostics.t :=
  {| Diagnostics.backend := Diagnostics.backend r;
     Diagnostics.database := Diagnostics.database r;
     Diagnostics.database_url := Diagnostics.database_url r;
     Diagnostics.database_name := Diagnostics.database_name r;
     Diagnostics.connection_status := Diagnostics.connection_status r;
     Diagnostics.collections := v |}.

Definition initial_response : Diagnostics.t :=
  {| Diagnostics.backend := RUNNING;
     Diagnostics.database := NOT_AVAILABLE;
     Diagnostics.database_url := None;
     Diagnostics.database_name := None;
     Diagnostics.connection_status := NOT_CONNECTED;
     Diagnostics.collections := [] |}.

(** Lines 38-53: the [try] statement. *)
Definition test_database_body : M (World * Diagnostics.t) unit :=
  try_except
    (do handle <- on_world (gets db);
     match handle with
     | Some _ =>
         assign (set_database AVAILABLE) ;;
         do url <- on_world (getenv "DATABASE_URL");
         assign (set_database_url (Some (if truthy_opt url then IS_SET else NOT_SET))) ;;
         do name <- on_world (getenv "DATABASE_NAME");
         assign (set_database_name
                   (Some (if truthy_opt name then default [] name else NOT_SET))) ;;
         assign (set_connection_status CONNECTED) ;;
         try_except
           (do collections <- on_world list_collection_names;
            assign (set_collections (slice_to 10 collections)) ;;
            assign (set_database WORKING))
           (fun e =>
              assign (set_database (CONNECTED_BUT_ERROR ++ slice_to 80 (str_exn e))))
     | None => assign (set_database NOT_INITIALIZED)
     end)
    (fun e => assign (set_database (ERROR_PREFIX ++ slice_to 80 (str_exn e)))).

Definition test_database : M World Diagnostics.t :=
  fun w =>
    let '(o, s) := test_database_body (w, initial_response) in
    match o with
    | Ok _ => (Ok (snd s), fst s)
    | Raise e => (Raise e, fst s)
    end.

(** The loop of [list_news] without the state: the responses of a list of
    documents, or the first validation error. *)
Fixpoint map_outcome {A B} (f : A -> outcome B) (xs : list A) : outcome (list B) :=
  match xs with
  | [] => Ok []
  | x :: r =>
      match f x with
      | Raise e => Raise e
      | Ok y =>
          match map_outcome f r with
          | Ok ys => Ok (y :: ys)
          | Raise e => Raise e
          end
      end
  end.

(** ** Observations and sample data *)

(** The documents of the "news" collection, in storage order. *)
Definition news_of (w : World) : list document :=
  match db w with
  | Some d => collection d NEWS
  | None => []
  end.

(** What [ingest_article] leaves behind in a connected world. *)
Definition after_ingest (payload : RawArticle.t) (w : World) (d : Database) : World :=
  {| db := Some {| colls := <[NEWS := collection d NEWS ++
                       [{| _id := next_oid d;
                           fields := to_document (toStoredArticle payload) |}]]>
                     (colls d);
                   next_oid := next_oid d + 1;
                   fault := fault d |};
     environ := environ w;
     calls := calls w ++ [CreateDocument NEWS (toStoredArticle payload)] |}.

Definition empty_database : Database :=
  {| colls := ∅; next_oid := 0; fault := None |}.

Definition fresh_world : World :=
  {| db := Some empty_database; environ := ∅; calls := [] |}.

Definition offline_world : World :=
  {| db := None; environ := ∅; calls := [] |}.

Definition faulty_world : World :=
  {| db := Some {| colls := ∅; next_oid := 0; fault := Some (u "timed out") |};
     environ := ∅; calls := [] |}.

(** The response [list_news] gives for a stored [NewsArticle]. *)
Definition response_of (oid : ObjectId) (a : NewsArticle.t) : NewsResponse.t :=
  {| NewsResponse.id := str_oid oid;
     NewsResponse.source := NewsArticle.source a;
     NewsResponse.title_ko := NewsArticle.title_ko a;
     NewsResponse.summary_ko := NewsArticle.summary_ko a;
     NewsResponse.sentiment := NewsArticle.sentiment a;
     NewsResponse.published_at := NewsArticle.published_at a;
     NewsResponse.tags := Some (NewsArticle.tags a);
     NewsResponse.ticker := NewsArticle.ticker a |}.

Definition sample_payload (content : option pystr) : RawArticle.t :=
  {| RawArticle.url := u "http://x"; RawArticle.source := u "S";
     RawArticle.title := u "T"; RawArticle.content := content;
     RawArticle.published_at := None; RawArticle.ticker := None |}.

(** A world whose "news" collection holds one ingested article. *)
Definition seeded_database : Database :=
  {| colls := <[NEWS := [{| _id := 0;
                            fields := to_document
                              (toStoredArticle (sample_payload (Some (u "hello")))) |}]]> ∅;
     next_oid := 1;
     fault := None |}.

Definition seeded_world : World :=
  {| db := Some seeded_database; environ := ∅; calls := [] |}.

(** A document written by another producer: no [title_ko], no [tags]. *)
Definition foreign_document : document :=
  {| _id := 7;
     fields := <["source" := VStr (u "S")]>
               (<["title_en" := VStr (u "Title")]>
               (<["summary_ko" := VStr (u "hello")]>
               (<["sentiment" := VStr (u "positive")]> ∅))) |}.

Definition foreign_response : NewsResponse.t :=
  {| NewsResponse.id := str_oid 7;
     NewsResponse.source := u "S";
     NewsResponse.title_ko := u "Title";
     NewsResponse.summary_ko := u "hello";
     NewsResponse.sentiment := u "positive";
     NewsResponse.published_at := None;
     NewsResponse.tags := Some [];
     NewsResponse.ticker := None |}.

(** A request body without the [url] member. *)
Definition body_without_url : dict :=
  <["source" := VStr (u "S")]> (<["title" := VStr (u "T")]> ∅).

(** The body of the round-trip request: url, source, title and content, and
    nothing else. *)
Definition roundtrip_body : dict :=
  <["url" := VStr (u "http://x")]>
  (<["source" := VStr (u "S")]>
  (<["title" := VStr (u "T")]>
  (<["content" := VStr (u "hello")]> ∅))).

(** No string is read as a timestamp: enough for the sample runs. *)
Definition no_datetime (s : pystr) : option datetime := None.

(** ** Documents the listing accepts *)

Definition is_str (v : value) : bool :=
  match v with VStr _ => true | _ => false end.

Definition is_opt_str (v : value) : bool :=
  match v with VNone | VStr _ => true | _ => false end.

Definition is_opt_list (v : value) : bool :=
  match v with VNone | VList _ => true | _ => false end.

Definition is_opt_datetime (parse_datetime : pystr -> option datetime)
    (v : value) : bool :=
  match v with
  | VNone | VDate _ => true
  | VStr s => match parse_datetime s with Some _ => true | None => false end
  | VList _ => false
  end.

(** The field is missing, or it holds a value of the right kind. *)
Definition absent_or (P : value -> bool) (d : dict) (k : string) : bool :=
  match d !! k with
  | Some v => P v
  | None => true
  end.

(** A stored document every field of which, where present, has the type the
    response declares for it; [title_en] matters only without [title_ko]. *)
Definition listable (parse_datetime : pystr -> option datetime)
    (it : document) : bool :=
  absent_or is_str (fields it) "source"
  && match fields it !! "title_ko" with
     | Some v => is_str v
     | None => absent_or is_str (fields it) "title_en"
     end
  && absent_or is_str (fields it) "summary_ko"
  && absent_or is_str (fields it) "sentiment"
  && absent_or (is_opt_datetime parse_datetime) (fields it) "published_at"
  && absent_or is_opt_list (fields it) "tags"
  && absent_or is_opt_str (fields it) "ticker".

(** The summary [ingest_article] stores for a payload. *)
Definition stored_summary (payload : RawArticle.t) : pystr :=
  NewsArticle.summary_ko (toStoredArticle payload).

(** The document [ingest_article] stores for a payload under an identifier. *)
Definition stored_document (oid : ObjectId) (payload : RawArticle.t) : document :=
  {| _id := oid; fields := to_document (toStoredArticle payload) |}.

(** A payload whose content is cut inside a run of text: 499 letters, a
    space, one more letter. *)
Definition long_payload : RawArticle.t :=
  sample_payload (Some (replicate 499 0x61 ++ [0x20; 0x62])).

(** A document whose [title_ko] is stored as null beside a usable
    [title_en]. *)
Definition null_title_document : document :=
  {| _id := 8;
     fields := <["title_ko" := VNone]> (fields foreign_document) |}.

Definition configured_world : World :=
  {| db := Some seeded_database;
     environ := <["DATABASE_URL" := u "mongodb://localhost"]>
                (<["DATABASE_NAME" := []]> ∅);
     calls := [] |}.

(** A stored document with no field but its identifier, and its response. *)
Definition bare_document : document := {| _id := 9; fields := ∅ |}.

Definition bare_response : NewsResponse.t :=
  {| NewsResponse.id := str_oid 9;
     NewsResponse.source := [];
     NewsResponse.title_ko := [];
     NewsResponse.summary_ko := [];
     NewsResponse.sentiment := u "neutral";
     NewsResponse.published_at := None;
     NewsResponse.tags := Some [];
     NewsResponse.ticker := None |}.

Definition faulty_database : Database :=
  {| colls := ∅; next_oid := 0; fault := Some (u "timed out") |}.

(** A document whose [tags] is stored as null. *)
Definition null_tags_document : document :=
  {| _id := 10;
     fields := <["tags" := VNone]> (<["title_ko" := VStr (u "T")]> ∅) |}.

(** A store whose "news" collection holds a listable document followed by
    one whose [title_ko] is stored as null. *)
Definition mixed_world : World :=
  {| db := Some {| colls := <[NEWS := [foreign_document; null_title_document]]> ∅;
                   next_oid := 11;
                   fault := None |};
     environ := ∅;
     calls := [] |}.

(** ** [GET /api/news] as the framework serves it *)

(** The route behind [list_news]: the framework reads [limit] out of the
    query string before it calls the handler.  An absent [limit] takes the
    default 20 of line 71; one that does not read as an integer is answered
    with a validation error and the handler does not run.  How a string
    reads as an integer is the model library's business: [parse_int]. *)
Definition get_api_news (parse_int : pystr -> option Z)
    (parse_datetime : pystr -> option datetime)
    (limit sentiment ticker : option pystr) : M World (list NewsResponse.t) :=
  match limit with
  | None => list_news parse_datetime 20 sentiment ticker
  | Some raw =>
      match parse_int raw with
      | Some n => list_news parse_datetime n sentiment ticker
      | None => raise RequestValidationError
      end
  end.

(** No string reads as an integer: enough for a sample run. *)
Definition no_int (s : pystr) : option Z := None.

(** * Properties *)

(** ** The string primitives *)

Lemma lstrip_nil (s : pystr) : lstrip s = [] ↔ Forall (fun c => isspace c = true) s.
Proof.
  induction s as [|c r IH]; simpl.
  - split; [constructor | reflexivity].
  - destruct (isspace c) eqn:Hc.
    + rewrite IH. split; [by constructor | by inversion 1].
    + split; [discriminate | inversion 1; congruence].
Qed.

Lemma lstrip_spaces (s : pystr) :
  ∃ pre, s = pre ++ lstrip s ∧ Forall (fun c => isspace c = true) pre.
Proof.
  induction s as [|c r (pre & Hs & Hpre)]; simpl.
  - by exists [].
  - destruct (isspace c) eqn:Hc.
    + exists (c :: pre). split; [simpl; congruence | by constructor].
    + by exists [].
Qed.

Lemma lstrip_head (s : pystr) c : head (lstrip s) = Some c → isspace c = false.
Proof.
  induction s as [|c' r IH]; simpl; [discriminate|].
  destruct (isspace c') eqn:Hc; [done|]. simpl. congruence.
Qed.

(** [strip] removes a run of whitespace at each end and nothing else. *)
Lemma strip_spec (s : pystr) :
  ∃ pre post,
    s = pre ++ strip s ++ post
    ∧ Forall (fun c => isspace c = true) pre
    ∧ Forall (fun c => isspace c = true) post
    ∧ (∀ c, head (strip s) = Some c → isspace c = false)
    ∧ (∀ c, last (strip s) = Some c → isspace c = false).
Proof.
  destruct (lstrip_spaces s) as (pre & Hs & Hpre).
  destruct (lstrip_spaces (reverse (lstrip s))) as (tsop & Hr & Htsop).
  exists pre, (reverse tsop). unfold strip, rstrip.
  assert (Hl : lstrip s = reverse (lstrip (reverse (lstrip s))) ++ reverse tsop).
  { rewrite <- reverse_app, <- Hr. by rewrite reverse_involutive. }
  split; [by rewrite <- Hl|].
  split; [done|].
  split; [by apply Forall_reverse|].
  split.
  - intros c Hc.
    destruct (lstrip (reverse (lstrip s))) as [|x l] eqn:Hx using rev_ind;
      [by rewrite reverse_nil in Hc|].
    clear IHl. rewrite reverse_snoc in Hc. simpl in Hc. injection Hc as ->.
    destruct (lstrip_spaces (reverse (lstrip s))) as (q & Hq & HqF).
    rewrite Hx in Hq.
    assert (Hrev : lstrip s = reverse (l ++ [c]) ++ reverse q).
    { rewrite <- reverse_app, <- Hq. by rewrite reverse_involutive. }
    rewrite reverse_snoc in Hrev. simpl in Hrev.
    apply (lstrip_head s). by rewrite Hrev.
  - intros c Hc. rewrite last_reverse in Hc.
    by apply (lstrip_head (reverse (lstrip s))).
Qed.

Lemma strip_nil (s : pystr) : strip s = [] ↔ Forall (fun c => isspace c = true) s.
Proof.
  unfold strip, rstrip. split.
  - intros H. destruct (lstrip_spaces s) as (pre & Hs & Hpre).
    assert (Hl : lstrip (reverse (lstrip s)) = []).
    { apply (f_equal reverse) in H. by rewrite reverse_involutive in H. }
    apply lstrip_nil, Forall_reverse in Hl. rewrite reverse_involutive in Hl.
    rewrite Hs. by apply Forall_app.
  - intros H. apply lstrip_nil in H. rewrite H. reflexivity.
Qed.

Lemma truthy_false (s : pystr) : truthy s = false ↔ s = [].
Proof. by destruct s. Qed.

Lemma opt_or_empty_default (o : option pystr) : opt_or_empty o = default [] o.
Proof. by destruct o as [[|]|]. Qed.

(** ** The store and the handlers *)

Lemma to_document_lookup (a : NewsArticle.t) :
  to_document a !! "url" = Some (VStr (NewsArticle.url a))
  ∧ to_document a !! "source" = Some (VStr (NewsArticle.source a))
  ∧ to_document a !! "title_en" = Some (opt_value VStr (NewsArticle.title_en a))
  ∧ to_document a !! "title_ko" = Some (VStr (NewsArticle.title_ko a))
  ∧ to_document a !! "summary_ko" = Some (VStr (NewsArticle.summary_ko a))
  ∧ to_document a !! "sentiment" = Some (VStr (NewsArticle.sentiment a))
  ∧ to_document a !! "published_at" = Some (opt_value VDate (NewsArticle.published_at a))
  ∧ to_document a !! "tags" = Some (VList (NewsArticle.tags a))
  ∧ to_document a !! "ticker" = Some (opt_value VStr (NewsArticle.ticker a)).
Proof. unfold to_document. repeat split; by simplify_map_eq. Qed.

Lemma ingest_article_connected (payload : RawArticle.t) (w : World) (d : Database) :
  db w = Some d → fault d = None →
  ingest_article payload w
  = (Ok {| IngestResult.id := str_oid (next_oid d); IngestResult.status := OK_STATUS |},
     after_ingest payload w d).
Proof.
  intros Hdb Hfault.
  unfold ingest_article, create_document, driver, log_call, modify, gets, bind, ret,
    after_ingest, set_db.
  simpl. rewrite Hdb. simpl. rewrite Hdb, Hfault. reflexivity.
Qed.

Lemma news_of_after_ingest (payload : RawArticle.t) (w : World) (d : Database) :
  db w = Some d →
  news_of (after_ingest payload w d)
  = news_of w ++ [{| _id := next_oid d;
                     fields := to_document (toStoredArticle payload) |}].
Proof.
  intros Hdb. unfold news_of, after_ingest, collection. simpl.
  rewrite Hdb, lookup_insert_eq. reflexivity.
Qed.

Lemma ingest_article_offline (payload : RawArticle.t) (w : World) :
  db w = None →
  ingest_article payload w = (Raise (HTTPException 500 DB_NOT_AVAILABLE), w).
Proof.
  intros Hdb. unfold ingest_article, gets, bind, raise. by rewrite Hdb.
Qed.

(** ** Ingestion: the stored document *)

(** C1 (as amended): for every payload ingested over a live connection, the
    stored document's [summary_ko] is the first 500 characters of the
    stripped content, or, when that is empty (content absent, empty or
    whitespace only), the fixed placeholder of the source, the Korean text
    [NO_SUMMARY] (code points C694 C57D 20 C5C6 C74C); it is never empty. *)
Theorem C1_summary_ko (payload : RawArticle.t) (w : World) (d : Database) :
  db w = Some d → fault d = None →
  let t := slice_to 500 (strip (default [] (RawArticle.content payload))) in
  let summary := if truthy t then t else NO_SUMMARY in
  ∃ r w' doc,
    ingest_article payload w = (Ok r, w')
    ∧ news_of w' = news_of w ++ [doc]
    ∧ fields doc !! "summary_ko" = Some (VStr summary)
    ∧ (truthy t = false
       ↔ Forall (fun c => isspace c = true) (default [] (RawArticle.content payload)))
    ∧ NO_SUMMARY = u "요약 없음"
    ∧ summary ≠ [].
Proof.
  intros Hdb Hfault t summary.
  eexists _, _, _. split; [by apply ingest_article_connected|].
  split; [by apply news_of_after_ingest|].
  simpl. destruct (to_document_lookup (toStoredArticle payload))
    as (_ & _ & _ & _ & Hsum & _).
  split.
  { rewrite Hsum. simpl. unfold str_or. by rewrite opt_or_empty_default. }
  split.
  { subst t. rewrite truthy_false. unfold slice_to. rewrite <- strip_nil.
    destruct (strip _); simpl; split; done. }
  split; [reflexivity|].
  subst summary. by destruct (truthy t) eqn:Ht; [destruct t|].
Qed.

(** C4: for every payload ingested over a live connection, the [sentiment]
    of the stored document is the constant "neutral". *)
Theorem C4_sentiment_neutral (payload : RawArticle.t) (w : World) (d : Database) :
  db w = Some d → fault d = None →
  NewsArticle.sentiment (toStoredArticle payload) = u "neutral"
  ∧ ∃ r w' doc,
      ingest_article payload w = (Ok r, w')
      ∧ news_of w' = news_of w ++ [doc]
      ∧ fields doc !! "sentiment" = Some (VStr (u "neutral")).
Proof.
  intros Hdb Hfault. split; [reflexivity|].
  eexists _, _, _. split; [by apply ingest_article_connected|].
  split; [by apply news_of_after_ingest|].
  simpl. by destruct (to_document_lookup (toStoredArticle payload))
    as (_ & _ & _ & _ & _ & -> & _).
Qed.

(** C10: every document stored by [ingest_article] has [title_en] set to
    [None], whatever the payload.  Its [title_ko] is present, so the response
    takes the title from it; and were [title_ko] missing, the fallback to
    [title_en] would yield [None], never a non-empty title: the response
    model rejects it. *)
Theorem C10_title_en_none (payload : RawArticle.t) (w : World) (d : Database)
    (parse_datetime : pystr → option datetime) :
  db w = Some d → fault d = None →
  NewsArticle.title_en (toStoredArticle payload) = None
  ∧ ∃ r w' doc,
      ingest_article payload w = (Ok r, w')
      ∧ news_of w' = news_of w ++ [doc]
      ∧ fields doc !! "title_en" = Some VNone
      ∧ fields doc !! "title_ko" = Some (VStr (RawArticle.title payload))
      ∧ get_or (fields doc) "title_en" (VStr []) = VNone
      ∧ (∀ resp, toResponse parse_datetime doc = Ok resp →
           NewsResponse.title_ko resp = RawArticle.title payload)
      ∧ toResponse parse_datetime
          {| _id := _id doc; fields := delete "title_ko" (fields doc) |}
        = Raise INVALID.
Proof.
  intros Hdb Hfault. split; [reflexivity|].
  eexists _, _, _. split; [by apply ingest_article_connected|].
  split; [by apply news_of_after_ingest|].
  simpl.
  destruct (to_document_lookup (toStoredArticle payload))
    as (_ & Hso & Hen & Hko & Hsu & Hse & Hpu & Hta & Hti).
  split; [done|]. split; [done|].
  split; [by unfold get_or; rewrite Hen|].
  split.
  - intros resp. unfold toResponse, NewsResponse_init, get, get_or. simpl.
    rewrite Hso, Hko, Hsu, Hse, Hpu, Hta, Hti. simpl.
    destruct (RawArticle.published_at payload), (RawArticle.ticker payload);
      simpl; by intros [= <-].
  - unfold toResponse, NewsResponse_init, get, get_or. simpl.
    rewrite lookup_delete_eq.
    rewrite !lookup_delete_ne by done.
    rewrite Hso, Hen. reflexivity.
Qed.

(** ** Listing *)

Lemma for_each_lift {S A B} (f : A → outcome B) (xs : list A) (s : S) :
  for_each (fun x => lift_outcome (f x)) xs s = (map_outcome f xs, s).
Proof.
  induction xs as [|x r IH]; [reflexivity|].
  simpl. unfold bind, lift_outcome at 1. destruct (f x) as [y|e]; [|reflexivity].
  rewrite IH. by destruct (map_outcome f r).
Qed.

Lemma map_outcome_app {A B} (f : A → outcome B) (xs ys : list A) (rs : list B) :
  map_outcome f xs = Ok rs →
  map_outcome f (xs ++ ys)
  = match map_outcome f ys with
    | Ok rs' => Ok (rs ++ rs')
    | Raise e => Raise e
    end.
Proof.
  revert rs. induction xs as [|x r IH]; intros rs; simpl.
  - intros [= <-]. by destruct (map_outcome f ys).
  - destruct (f x) as [y|e]; [|discriminate].
    destruct (map_outcome f r) as [ys'|e] eqn:Hr; [|discriminate].
    intros [= <-]. rewrite (IH ys' eq_refl). by destruct (map_outcome f ys).
Qed.

Lemma map_outcome_Forall {A B} (f : A → outcome B) (P : A → Prop) (Q : B → Prop)
    (xs : list A) (rs : list B) :
  (∀ x y, P x → f x = Ok y → Q y) →
  Forall P xs → map_outcome f xs = Ok rs → Forall Q rs.
Proof.
  intros HPQ HP. revert rs. induction HP as [|x r Hx Hr IH]; intros rs; simpl.
  - intros [= <-]. constructor.
  - destruct (f x) as [y|e] eqn:Hy; [|discriminate].
    destruct (map_outcome f r) as [ys|e]; [|discriminate].
    intros [= <-]. constructor; eauto.
Qed.

Lemma set_db_with_call (c : StorageCall) (w : World) (d : Database) :
  db w = Some d → set_db (Some d) (with_call c w) = with_call c w.
Proof. intros Hdb. unfold set_db, with_call. simpl. by rewrite Hdb. Qed.

Lemma get_documents_connected (name : string) (f : dict) (limit : Z)
    (w : World) (d : Database) :
  db w = Some d → fault d = None →
  get_documents name f limit w
  = (Ok (take (Z.to_nat limit) (List.filter (matches f) (collection d name))),
     with_call (GetDocuments name f limit) w).
Proof.
  intros Hdb Hfault.
  unfold get_documents, driver, log_call, modify, bind.
  change (db (with_call _ w)) with (db w).
  rewrite Hdb, Hfault. by rewrite set_db_with_call.
Qed.

Lemma list_news_connected parse_datetime (limit : Z) (sentiment ticker : option pystr)
    (w : World) (d : Database) :
  db w = Some d → fault d = None →
  list_news parse_datetime limit sentiment ticker w
  = (map_outcome (toResponse parse_datetime)
       (take (Z.to_nat limit)
          (List.filter (matches (news_filter sentiment ticker)) (news_of w))),
     with_call (GetDocuments NEWS (news_filter sentiment ticker) limit) w).
Proof.
  intros Hdb Hfault. unfold list_news, news_of, bind at 1, gets. rewrite Hdb.
  unfold bind. rewrite (get_documents_connected _ _ _ _ d Hdb Hfault).
  apply for_each_lift.
Qed.

Lemma list_news_offline parse_datetime (limit : Z) (sentiment ticker : option pystr)
    (w : World) :
  db w = None →
  list_news parse_datetime limit sentiment ticker w
  = (Raise (HTTPException 500 DB_NOT_AVAILABLE), w).
Proof. intros Hdb. unfold list_news, gets, bind, raise. by rewrite Hdb. Qed.

Lemma matches_lookup (f : dict) (it : document) (k : string) (v : value) :
  matches f it = true → f !! k = Some v → fields it !! k = Some v.
Proof.
  unfold matches. intros Hm Hk. apply bool_decide_eq_true in Hm.
  by apply (lookup_weaken f).
Qed.

Lemma matches_empty (it : document) : matches ∅ it = true.
Proof. apply bool_decide_eq_true, map_empty_subseteq. Qed.

Lemma filter_matches_empty (l : list document) : List.filter (matches ∅) l = l.
Proof.
  induction l as [|x r IH]; [reflexivity|].
  simpl. rewrite matches_empty. by rewrite IH.
Qed.

Lemma toResponse_to_document parse_datetime (oid : ObjectId) (a : NewsArticle.t) :
  toResponse parse_datetime {| _id := oid; fields := to_document a |}
  = Ok (response_of oid a).
Proof.
  destruct (to_document_lookup a) as (_ & Hso & Hen & Hko & Hsu & Hse & Hpu & Hta & Hti).
  unfold toResponse, NewsResponse_init, get, get_or. simpl.
  rewrite Hso, Hko, Hsu, Hse, Hpu, Hta, Hti. unfold response_of.
  by destruct (NewsArticle.published_at a), (NewsArticle.ticker a).
Qed.

Lemma as_str_Ok (v : value) (s : pystr) : as_str v = Ok s → v = VStr s.
Proof. destruct v; simpl; congruence. Qed.

Lemma as_opt_str_Ok (v : value) (o : option pystr) :
  as_opt_str v = Ok o → v = opt_value VStr o.
Proof. destruct v; simpl; intros [= <-]; reflexivity. Qed.

Lemma as_opt_list_Ok (v : value) (o : option (list pystr)) :
  as_opt_list v = Ok o → v = opt_value VList o.
Proof. destruct v; simpl; intros [= <-]; reflexivity. Qed.

(** Every field of a response is the validated value of its argument
    expression. *)
Lemma toResponse_fields parse_datetime (it : document) (resp : NewsResponse.t) :
  toResponse parse_datetime it = Ok resp →
  NewsResponse.id resp = str_oid (_id it)
  ∧ VStr (NewsResponse.source resp) = get_or (fields it) "source" (VStr [])
  ∧ VStr (NewsResponse.title_ko resp)
    = get_or (fields it) "title_ko" (get_or (fields it) "title_en" (VStr []))
  ∧ VStr (NewsResponse.summary_ko resp) = get_or (fields it) "summary_ko" (VStr [])
  ∧ VStr (NewsResponse.sentiment resp) = get_or (fields it) "sentiment" (VStr NEUTRAL)
  ∧ as_opt_datetime parse_datetime (get (fields it) "published_at")
    = Ok (NewsResponse.published_at resp)
  ∧ opt_value VList (NewsResponse.tags resp) = get_or (fields it) "tags" (VList [])
  ∧ opt_value VStr (NewsResponse.ticker resp) = get (fields it) "ticker".
Proof.
  unfold toResponse, NewsResponse_init.
  destruct (as_str (VStr _)) as [i|] eqn:Hi; [|discriminate].
  destruct (as_str (get_or _ "source" _)) as [so|] eqn:Hso; [|discriminate].
  destruct (as_str (get_or _ "title_ko" _)) as [ti|] eqn:Hti; [|discriminate].
  destruct (as_str (get_or _ "summary_ko" _)) as [su|] eqn:Hsu; [|discriminate].
  destruct (as_str (get_or _ "sentiment" _)) as [se|] eqn:Hse; [|discriminate].
  destruct (as_opt_datetime _ _) as [pu|] eqn:Hpu; [|discriminate].
  destruct (as_opt_list _) as [ta|] eqn:Hta; [|discriminate].
  destruct (as_opt_str _) as [tk|] eqn:Htk; [|discriminate].
  intros [= <-]. simpl.
  apply as_str_Ok in Hi, Hso, Hti, Hsu, Hse.
  apply as_opt_list_Ok in Hta. apply as_opt_str_Ok in Htk.
  injection Hi as <-. by repeat split.
Qed.

Lemma news_filter_lookup (sentiment ticker : option pystr) (k : string) (v : value) :
  news_filter sentiment ticker !! k = Some v
  ↔ (k = "sentiment" ∧ ∃ s, sentiment = Some s ∧ s ≠ [] ∧ v = VStr s)
    ∨ (k = "ticker" ∧ ∃ t, ticker = Some t ∧ t ≠ [] ∧ v = VStr t).
Proof.
  unfold news_filter.
  destruct sentiment as [[|c s]|], ticker as [[|c' t]|]; simpl;
    rewrite ?lookup_insert, ?lookup_empty;
    repeat (destruct (decide _) as [<-|?]); split;
    try (intros [(? & ? & ? & ? & ?)|(? & ? & ? & ? & ?)]); try intros [= <-];
    simplify_eq; eauto 10.
Qed.

(** C6: over a live connection, listing with [limit = 0] returns the empty
    sequence, whatever the filters and the stored documents. *)
Theorem C6_limit_zero parse_datetime (sentiment ticker : option pystr)
    (w : World) (d : Database) :
  db w = Some d → fault d = None →
  list_news parse_datetime 0 sentiment ticker w
  = (Ok [], with_call (GetDocuments NEWS (news_filter sentiment ticker) 0) w).
Proof.
  intros Hdb Hfault. by rewrite (list_news_connected _ _ _ _ _ d Hdb Hfault).
Qed.

Lemma validate_roundtrip_body parse_datetime :
  validate_RawArticle parse_datetime roundtrip_body
  = Ok (sample_payload (Some (u "hello"))).
Proof. reflexivity. Qed.

(** C3: over a live connection whose "news" collection holds fewer than
    [limit] documents (the default limit is 20), all of them listable,
    ingesting the body url="http://x", source="S", title="T",
    content="hello" and then listing without filters yields, after the
    responses already there, a response with title_ko="T",
    summary_ko="hello", sentiment="neutral" and no ticker, under the
    identifier that the ingest returned. *)
Theorem C3_round_trip parse_datetime (limit : Z) (w : World) (d : Database)
    (rs0 : list NewsResponse.t) :
  db w = Some d → fault d = None →
  (length (news_of w) < Z.to_nat limit)%nat →
  map_outcome (toResponse parse_datetime) (news_of w) = Ok rs0 →
  ∃ r w1 resp w2,
    post_api_ingest parse_datetime roundtrip_body w = (Ok r, w1)
    ∧ list_news parse_datetime limit None None w1 = (Ok (rs0 ++ [resp]), w2)
    ∧ NewsResponse.id resp = IngestResult.id r
    ∧ NewsResponse.source resp = u "S"
    ∧ NewsResponse.title_ko resp = u "T"
    ∧ NewsResponse.summary_ko resp = u "hello"
    ∧ NewsResponse.sentiment resp = u "neutral"
    ∧ NewsResponse.published_at resp = None
    ∧ NewsResponse.tags resp = Some []
    ∧ NewsResponse.ticker resp = None.
Proof.
  intros Hdb Hfault Hlen Hrs0.
  set (payload := sample_payload (Some (u "hello"))).
  exists {| IngestResult.id := str_oid (next_oid d); IngestResult.status := OK_STATUS |},
    (after_ingest payload w d),
    (response_of (next_oid d) (toStoredArticle payload)).
  eexists. split.
  { unfold post_api_ingest, bind, lift_outcome. rewrite validate_roundtrip_body.
    by apply ingest_article_connected. }
  split; [|by repeat split].
  erewrite list_news_connected; [|reflexivity|exact Hfault].
  rewrite (news_of_after_ingest _ _ _ Hdb).
  change (news_filter None None) with (∅ : dict).
  rewrite filter_matches_empty, take_ge by (rewrite length_app; simpl; lia).
  rewrite (map_outcome_app _ _ _ _ Hrs0). simpl.
  by rewrite toResponse_to_document.
Qed.

(** C7: a body without a [url] member is rejected by the validation of the
    request, answered with status 422; the handler does not run, no storage
    call is recorded and the store is as it was. *)
Theorem C7_missing_url parse_datetime (body : dict) (w : World) :
  body !! "url" = None →
  post_api_ingest parse_datetime body w = (Raise RequestValidationError, w)
  ∧ http_status (fst (post_api_ingest parse_datetime body w)) = 422%Z
  ∧ calls (snd (post_api_ingest parse_datetime body w)) = calls w
  ∧ db (snd (post_api_ingest parse_datetime body w)) = db w.
Proof.
  intros Hurl.
  assert (H : post_api_ingest parse_datetime body w = (Raise RequestValidationError, w)).
  { unfold post_api_ingest, bind, lift_outcome, validate_RawArticle. by rewrite Hurl. }
  by rewrite H.
Qed.

Lemma ingest_article_faulty (payload : RawArticle.t) (w : World) (d : Database)
    (msg : pystr) :
  db w = Some d → fault d = Some msg →
  ingest_article payload w
  = (Raise (Exception msg), with_call (CreateDocument NEWS (toStoredArticle payload)) w).
Proof.
  intros Hdb Hfault.
  unfold ingest_article, create_document, driver, log_call, modify, gets, bind.
  rewrite Hdb. change (db (with_call _ w)) with (db w). by rewrite Hdb, Hfault.
Qed.

(** C8: with no connection handle, listing and ingesting both raise the
    HTTP error 500 "Database not available" and leave the world, and with it
    the record of storage calls, untouched; and an ingest that returns,
    returns the identifier the store assigned together with status "ok". *)
Theorem C8_unavailable parse_datetime (limit : Z) (sentiment ticker : option pystr)
    (payload : RawArticle.t) (w : World) :
  db w = None →
  list_news parse_datetime limit sentiment ticker w
  = (Raise (HTTPException 500 (u "Database not available")), w)
  ∧ ingest_article payload w
    = (Raise (HTTPException 500 (u "Database not available")), w)
  ∧ http_status (fst (list_news parse_datetime limit sentiment ticker w)) = 500%Z
  ∧ http_status (fst (ingest_article payload w)) = 500%Z
  ∧ (∀ w0 r w', ingest_article payload w0 = (Ok r, w') →
       ∃ d, db w0 = Some d ∧ fault d = None
            ∧ r = {| IngestResult.id := str_oid (next_oid d);
                     IngestResult.status := u "ok" |}
            ∧ w' = after_ingest payload w0 d)
  ∧ (∀ w0 d, db w0 = Some d → fault d = None →
       ∃ r w', ingest_article payload w0 = (Ok r, w')).
Proof.
  intros Hdb.
  rewrite (list_news_offline _ _ _ _ _ Hdb), (ingest_article_offline _ _ Hdb).
  repeat split.
  - intros w0 r w' H. destruct (db w0) as [d|] eqn:Hdb0.
    + destruct (fault d) as [msg|] eqn:Hf.
      * by rewrite (ingest_article_faulty _ _ _ _ Hdb0 Hf) in H.
      * rewrite (ingest_article_connected _ _ _ Hdb0 Hf) in H.
        injection H as <- <-. by exists d.
    + by rewrite (ingest_article_offline _ _ Hdb0) in H.
  - intros w0 d Hdb0 Hf. rewrite (ingest_article_connected _ _ _ Hdb0 Hf). eauto.
Qed.

(** ** Diagnostics *)

Lemma test_database_offline (w : World) :
  db w = None →
  test_database w = (Ok (set_database NOT_INITIALIZED initial_response), w).
Proof.
  intros Hdb.
  unfold test_database, test_database_body, try_except, bind, on_world, gets,
    assign, modify. simpl. by rewrite Hdb.
Qed.

Lemma test_database_working (w : World) (d : Database) :
  db w = Some d → fault d = None →
  test_database w
  = (Ok {| Diagnostics.backend := RUNNING;
           Diagnostics.database := WORKING;
           Diagnostics.database_url :=
             Some (if truthy_opt (environ w !! "DATABASE_URL") then IS_SET else NOT_SET);
           Diagnostics.database_name :=
             Some (if truthy_opt (environ w !! "DATABASE_NAME")
                   then default [] (environ w !! "DATABASE_NAME") else NOT_SET);
           Diagnostics.connection_status := CONNECTED;
           Diagnostics.collections :=
             slice_to 10 (u <$> (map_to_list (colls d)).*1) |},
     with_call ListCollectionNames w).
Proof.
  intros Hdb Hfault.
  unfold test_database, test_database_body, try_except, bind, on_world, gets,
    assign, modify, getenv, list_collection_names, driver, log_call, modify, bind.
  simpl. rewrite Hdb. simpl. rewrite Hdb, Hfault. simpl.
  by rewrite set_db_with_call.
Qed.

Lemma test_database_faulty (w : World) (d : Database) (msg : pystr) :
  db w = Some d → fault d = Some msg →
  test_database w
  = (Ok {| Diagnostics.backend := RUNNING;
           Diagnostics.database := CONNECTED_BUT_ERROR ++ slice_to 80 msg;
           Diagnostics.database_url :=
             Some (if truthy_opt (environ w !! "DATABASE_URL") then IS_SET else NOT_SET);
           Diagnostics.database_name :=
             Some (if truthy_opt (environ w !! "DATABASE_NAME")
                   then default [] (environ w !! "DATABASE_NAME") else NOT_SET);
           Diagnostics.connection_status := CONNECTED;
           Diagnostics.collections := [] |},
     with_call ListCollectionNames w).
Proof.
  intros Hdb Hfault.
  unfold test_database, test_database_body, try_except, bind, on_world, gets,
    assign, modify, getenv, list_collection_names, driver, log_call, modify, bind.
  simpl. rewrite Hdb. simpl. by rewrite Hdb, Hfault.
Qed.

(** C9: [test_database] returns in every world, with status 200: it never
    raises.  Without a connection handle the [database] field reads
    "Available but not initialized", the connection status stays "Not
    Connected" and no storage call is made; when the driver raises, its
    message (80 characters at most) is folded into the [database] field; and
    the reported collection names are the first 10 of the store's. *)
Theorem C9_diagnostics_never_raises (w : World) :
  ∃ resp w',
    test_database w = (Ok resp, w')
    ∧ http_status (fst (test_database w)) = 200%Z
    ∧ db w' = db w
    ∧ (length (Diagnostics.collections resp) ≤ 10)%nat
    ∧ match db w with
      | None =>
          Diagnostics.database resp = u "⚠️  Available but not initialized"
          ∧ Diagnostics.connection_status resp = u "Not Connected"
          ∧ Diagnostics.collections resp = []
          ∧ w' = w
      | Some d =>
          Diagnostics.connection_status resp = u "Connected"
          ∧ match fault d with
            | None =>
                Diagnostics.database resp = u "✅ Connected & Working"
                ∧ Diagnostics.collections resp
                  = take 10 (u <$> (map_to_list (colls d)).*1)
            | Some msg =>
                Diagnostics.database resp
                = u "⚠️  Connected but Error: " ++ take 80 msg
                ∧ Diagnostics.collections resp = []
            end
      end.
Proof.
  destruct (db w) as [d|] eqn:Hdb; [destruct (fault d) as [msg|] eqn:Hfault|].
  - rewrite (test_database_faulty _ _ _ Hdb Hfault). eexists _, _.
    repeat split; simpl; [done|lia].
  - rewrite (test_database_working _ _ Hdb Hfault). eexists _, _.
    repeat split; simpl; [done|]. unfold slice_to. rewrite length_take. lia.
  - rewrite (test_database_offline _ Hdb). eexists _, _.
    repeat split; simpl; [done|lia].
Qed.

(** ** Sample runs *)

(** C1, as first stated, names the placeholder "no summary available"; the
    placeholder of the source is another string.  Ingesting a payload
    without content into the empty store: the stripped and truncated content
    is empty and the stored [summary_ko] is not "no summary available". *)
Lemma C1_placeholder_counterexample :
  ∃ r w' doc,
    ingest_article (sample_payload None) fresh_world = (Ok r, w')
    ∧ news_of w' = [doc]
    ∧ slice_to 500 (strip (default [] (RawArticle.content (sample_payload None)))) = []
    ∧ fields doc !! "summary_ko" = Some (VStr NO_SUMMARY)
    ∧ fields doc !! "summary_ko" ≠ Some (VStr (u "no summary available")).
Proof.
  eexists _, _, _.
  split; [by apply (ingest_article_connected _ _ empty_database)|].
  split; [reflexivity|]. split; [reflexivity|].
  simpl. destruct (to_document_lookup (toStoredArticle (sample_payload None)))
    as (_ & _ & _ & _ & -> & _).
  split; [reflexivity|]. vm_compute. discriminate.
Qed.

Example strip_example : strip (u "  hello world  ") = u "hello world".
Proof. reflexivity. Qed.

Example strip_keeps_inner_space : strip [0x3000; 0x41; 0x20; 0x42; 0x0A] = [0x41; 0x20; 0x42].
Proof. reflexivity. Qed.

Example NO_SUMMARY_code_points :
  NO_SUMMARY = [0xC694; 0xC57D; 0x20; 0xC5C6; 0xC74C].
Proof. reflexivity. Qed.

Example str_oid_example : str_oid 255 = u "0000000000000000000000ff".
Proof. reflexivity. Qed.

Example seeded_world_by_ingest :
  db (snd (ingest_article (sample_payload (Some (u "hello"))) fresh_world))
  = Some seeded_database.
Proof. reflexivity. Qed.

Lemma C1_summary_ko_witness :
  db fresh_world = Some empty_database
  ∧ fault empty_database = None
  ∧ ∃ r w' doc,
      ingest_article (sample_payload (Some (u "  hello "))) fresh_world = (Ok r, w')
      ∧ news_of w' = news_of fresh_world ++ [doc]
      ∧ fields doc !! "summary_ko" = Some (VStr (u "hello")).
Proof.
  split; [reflexivity|]. split; [reflexivity|].
  destruct (C1_summary_ko (sample_payload (Some (u "  hello "))) fresh_world
              empty_database eq_refl eq_refl) as (r & w' & doc & H1 & H2 & H3 & _).
  exists r, w', doc. split; [exact H1|]. split; [exact H2|]. exact H3.
Defined.

Lemma C4_sentiment_neutral_witness :
  db fresh_world = Some empty_database
  ∧ fault empty_database = None
  ∧ ∃ r w' doc,
      ingest_article (sample_payload None) fresh_world = (Ok r, w')
      ∧ news_of w' = news_of fresh_world ++ [doc]
      ∧ fields doc !! "sentiment" = Some (VStr (u "neutral")).
Proof.
  split; [reflexivity|]. split; [reflexivity|].
  exact (proj2 (C4_sentiment_neutral (sample_payload None) fresh_world
                  empty_database eq_refl eq_refl)).
Defined.

Lemma C10_title_en_none_witness :
  db fresh_world = Some empty_database
  ∧ fault empty_database = None
  ∧ NewsArticle.title_en (toStoredArticle (sample_payload (Some (u "hello")))) = None.
Proof.
  split; [reflexivity|]. split; [reflexivity|].
  exact (proj1 (C10_title_en_none (sample_payload (Some (u "hello"))) fresh_world
                  empty_database no_datetime eq_refl eq_refl)).
Defined.

Lemma C6_limit_zero_witness :
  db seeded_world = Some seeded_database
  ∧ fault seeded_database = None
  ∧ list_news no_datetime 0 None None seeded_world
    = (Ok [], with_call (GetDocuments NEWS (news_filter None None) 0) seeded_world).
Proof.
  split; [reflexivity|]. split; [reflexivity|].
  exact (C6_limit_zero no_datetime None None seeded_world seeded_database
           eq_refl eq_refl).
Defined.

Lemma C3_round_trip_witness :
  db fresh_world = Some empty_database
  ∧ fault empty_database = None
  ∧ (length (news_of fresh_world) < Z.to_nat 20)%nat
  ∧ map_outcome (toResponse no_datetime) (news_of fresh_world) = Ok []
  ∧ ∃ r w1 resp w2,
      post_api_ingest no_datetime roundtrip_body fresh_world = (Ok r, w1)
      ∧ list_news no_datetime 20 None None w1 = (Ok ([] ++ [resp]), w2)
      ∧ NewsResponse.title_ko resp = u "T"
      ∧ NewsResponse.summary_ko resp = u "hello"
      ∧ NewsResponse.sentiment resp = u "neutral"
      ∧ NewsResponse.ticker resp = None.
Proof.
  assert (Hlen : (length (news_of fresh_world) < Z.to_nat 20)%nat)
    by (vm_compute; lia).
  split; [reflexivity|]. split; [reflexivity|]. split; [exact Hlen|].
  split; [reflexivity|].
  destruct (C3_round_trip no_datetime 20 fresh_world empty_database []
              eq_refl eq_refl Hlen eq_refl)
    as (r & w1 & resp & w2 & H1 & H2 & _ & _ & H5 & H6 & H7 & _ & _ & H10).
  exists r, w1, resp, w2. repeat split; assumption.
Defined.

Lemma C7_missing_url_witness :
  body_without_url !! "url" = None
  ∧ post_api_ingest no_datetime body_without_url fresh_world
    = (Raise RequestValidationError, fresh_world).
Proof.
  split; [reflexivity|].
  exact (proj1 (C7_missing_url no_datetime body_without_url fresh_world eq_refl)).
Defined.

Lemma C8_unavailable_witness :
  db offline_world = None
  ∧ list_news no_datetime 20 None None offline_world
    = (Raise (HTTPException 500 (u "Database not available")), offline_world)
  ∧ ingest_article (sample_payload None) offline_world
    = (Raise (HTTPException 500 (u "Database not available")), offline_world).
Proof.
  split; [reflexivity|].
  destruct (C8_unavailable no_datetime 20 None None (sample_payload None)
              offline_world eq_refl) as (H1 & H2 & _).
  split; [exact H1 | exact H2].
Defined.

(** A field stored as null is present, not absent: it is copied as [None]
    and the default is not used. *)
Example toResponse_null_tags :
  NewsResponse.tags <$>
    match toResponse no_datetime
            {| _id := 7; fields := <["tags" := VNone]> (fields foreign_document) |} with
    | Ok resp => Some resp
    | Raise _ => None
    end
  = Some None.
Proof. vm_compute. reflexivity. Qed.

(** The driver failing under [GET /test]: the message lands in the
    [database] field and the request still succeeds. *)
Example test_database_faulty_run :
  (fun r => (http_status r,
             match r with
             | Ok resp => Some (Diagnostics.database resp)
             | Raise _ => None
             end)) (fst (test_database faulty_world))
  = (200%Z, Some (u "⚠️  Connected but Error: timed out")).
Proof. vm_compute. reflexivity. Qed.

Example test_database_offline_run :
  fst (test_database offline_world)
  = Ok {| Diagnostics.backend := u "✅ Running";
          Diagnostics.database := u "⚠️  Available but not initialized";
          Diagnostics.database_url := None;
          Diagnostics.database_name := None;
          Diagnostics.connection_status := u "Not Connected";
          Diagnostics.collections := [] |}.
Proof. vm_compute. reflexivity. Qed.

(** * Further properties of the handlers *)

(** ** The stored summary *)

Lemma stored_summary_eq (payload : RawArticle.t) :
  stored_summary payload
  = (if truthy (slice_to 500 (strip (default [] (RawArticle.content payload))))
     then slice_to 500 (strip (default [] (RawArticle.content payload)))
     else NO_SUMMARY).
Proof.
  unfold stored_summary, toStoredArticle, str_or. simpl.
  by rewrite opt_or_empty_default.
Qed.

Lemma slice_to_nil (s : pystr) : slice_to 500 s = [] ↔ s = [].
Proof. by destruct s. Qed.

Lemma lstrip_app_spaces (pre s : pystr) :
  Forall (fun c => isspace c = true) pre → lstrip (pre ++ s) = lstrip s.
Proof. induction 1 as [|c r Hc _ IH]; simpl; [done|]. by rewrite Hc. Qed.

Lemma lstrip_app (s t : pystr) :
  lstrip (s ++ t) = match lstrip s with [] => lstrip t | _ :: _ => lstrip s ++ t end.
Proof.
  induction s as [|c r IH]; simpl; [done|].
  by destruct (isspace c).
Qed.

Lemma rstrip_app_spaces (s post : pystr) :
  Forall (fun c => isspace c = true) post → rstrip (s ++ post) = rstrip s.
Proof.
  intros H. unfold rstrip. rewrite reverse_app.
  rewrite lstrip_app_spaces; [done|]. by apply Forall_reverse.
Qed.

Lemma strip_pad (pre s post : pystr) :
  Forall (fun c => isspace c = true) pre →
  Forall (fun c => isspace c = true) post →
  strip (pre ++ s ++ post) = strip s.
Proof.
  intros Hpre Hpost. unfold strip.
  rewrite (lstrip_app_spaces _ _ Hpre), lstrip_app.
  destruct (lstrip s) as [|c r] eqn:Hs.
  - by rewrite (proj2 (lstrip_nil post) Hpost).
  - by apply rstrip_app_spaces.
Qed.

Lemma strip_clean (s : pystr) :
  (∀ c, head s = Some c → isspace c = false) →
  (∀ c, last s = Some c → isspace c = false) →
  strip s = s.
Proof.
  intros Hh Hl. unfold strip, rstrip.
  assert (Hs : lstrip s = s).
  { destruct s as [|c r]; [done|]. simpl. by rewrite (Hh c eq_refl). }
  rewrite Hs.
  assert (Hr : lstrip (reverse s) = reverse s).
  { destruct (reverse s) as [|c r] eqn:Hrev; [done|].
    simpl. rewrite (Hl c); [done|].
    by rewrite <- head_reverse, Hrev. }
  by rewrite Hr, reverse_involutive.
Qed.

(** X1: the stored summary has between 1 and 500 characters, whatever the
    payload. *)
Theorem summary_length_bounds (payload : RawArticle.t) :
  (1 ≤ length (stored_summary payload) ≤ 500)%nat.
Proof.
  rewrite stored_summary_eq.
  destruct (truthy _) eqn:Ht.
  - split.
    + destruct (slice_to 500 _); [discriminate | simpl; lia].
    + unfold slice_to. rewrite length_take. lia.
  - vm_compute. lia.
Qed.

(** X3: the stored summary never starts with whitespace; it does not end
    with whitespace either as long as the stripped content fits in 500
    characters; when the content is cut at 500 characters the summary can
    end with a space. *)
Theorem summary_edges (payload : RawArticle.t) :
  (∀ c, head (stored_summary payload) = Some c → isspace c = false)
  ∧ ((length (strip (default [] (RawArticle.content payload))) ≤ 500)%nat →
       ∀ c, last (stored_summary payload) = Some c → isspace c = false)
  ∧ last (stored_summary long_payload) = Some 0x20.
Proof.
  rewrite stored_summary_eq.
  set (content := default [] (RawArticle.content payload)).
  destruct (strip_spec content) as (_ & _ & _ & _ & _ & Hh & Hl).
  split; [|split].
  - destruct (truthy _) eqn:Ht.
    + intros c Hc. apply Hh. by destruct (strip content).
    + vm_compute. by intros c [= <-].
  - intros Hlen. destruct (truthy _) eqn:Ht.
    + unfold slice_to. by rewrite take_ge.
    + vm_compute. by intros c [= <-].
  - vm_compute. reflexivity.
Qed.

(** X4: a content of at most 500 characters that is not empty and neither
    starts nor ends with whitespace is stored as the summary unchanged. *)
Theorem summary_of_clean_content (payload : RawArticle.t) (s : pystr) :
  RawArticle.content payload = Some s →
  s ≠ [] →
  (∀ c, head s = Some c → isspace c = false) →
  (∀ c, last s = Some c → isspace c = false) →
  (length s ≤ 500)%nat →
  stored_summary payload = s.
Proof.
  intros Hc Hne Hh Hl Hlen. rewrite stored_summary_eq, Hc. simpl.
  rewrite (strip_clean s Hh Hl). unfold slice_to. rewrite take_ge by done.
  by destruct s.
Qed.

(** X5: whitespace around the content does not change the stored summary. *)
Theorem summary_ignores_padding (p q : RawArticle.t) (pre s post : pystr) :
  RawArticle.content p = Some (pre ++ s ++ post) →
  RawArticle.content q = Some s →
  Forall (fun c => isspace c = true) pre →
  Forall (fun c => isspace c = true) post →
  stored_summary p = stored_summary q.
Proof.
  intros Hp Hq Hpre Hpost. rewrite !stored_summary_eq, Hp, Hq. simpl.
  by rewrite (strip_pad _ _ _ Hpre Hpost).
Qed.

(** ** The response mapping *)

Lemma NewsResponse_init_checks parse_datetime (v1 v2 v3 v4 v5 v6 v7 v8 : value) :
  match NewsResponse_init parse_datetime v1 v2 v3 v4 v5 v6 v7 v8 with
  | Ok _ =>
      is_str v1 && is_str v2 && is_str v3 && is_str v4 && is_str v5
      && is_opt_datetime parse_datetime v6 && is_opt_list v7 && is_opt_str v8 = true
  | Raise e =>
      e = INVALID
      ∧ is_str v1 && is_str v2 && is_str v3 && is_str v4 && is_str v5
        && is_opt_datetime parse_datetime v6 && is_opt_list v7 && is_opt_str v8 = false
  end.
Proof.
  unfold NewsResponse_init.
  destruct v1; simpl; try done.
  destruct v2; simpl; try done.
  destruct v3; simpl; try done.
  destruct v4; simpl; try done.
  destruct v5; simpl; try done.
  destruct v6 as [| s6 | |]; simpl; try done;
    try (destruct (parse_datetime s6); simpl; try done);
    destruct v7; simpl; try done; destruct v8; simpl; done.
Qed.

Lemma is_str_get_or (d : dict) (k : string) (s : pystr) :
  is_str (get_or d k (VStr s)) = absent_or is_str d k.
Proof. unfold get_or, absent_or. by destruct (d !! k). Qed.

Lemma absent_or_get (P : value → bool) (d : dict) (k : string) :
  P VNone = true → P (get d k) = absent_or P d k.
Proof. intros HP. unfold get, get_or, absent_or. by destruct (d !! k). Qed.

Lemma toResponse_checks parse_datetime (it : document) :
  match toResponse parse_datetime it with
  | Ok _ => listable parse_datetime it = true
  | Raise e => e = INVALID ∧ listable parse_datetime it = false
  end.
Proof.
  assert (Hta : is_opt_list (get_or (fields it) "tags" (VList []))
                = absent_or is_opt_list (fields it) "tags").
  { unfold absent_or, get_or. by destruct (fields it !! "tags"). }
  assert (Hti : is_str (get_or (fields it) "title_ko"
                          (get_or (fields it) "title_en" (VStr [])))
                = match fields it !! "title_ko" with
                  | Some v => is_str v
                  | None => absent_or is_str (fields it) "title_en"
                  end).
  { unfold get_or at 1. destruct (fields it !! "title_ko"); [done|].
    apply is_str_get_or. }
  pose proof (NewsResponse_init_checks parse_datetime
                (VStr (str_oid (_id it)))
                (get_or (fields it) "source" (VStr []))
                (get_or (fields it) "title_ko" (get_or (fields it) "title_en" (VStr [])))
                (get_or (fields it) "summary_ko" (VStr []))
                (get_or (fields it) "sentiment" (VStr NEUTRAL))
                (get (fields it) "published_at")
                (get_or (fields it) "tags" (VList []))
                (get (fields it) "ticker")) as H.
  rewrite Hti, Hta, !is_str_get_or, !absent_or_get in H by done.
  exact H.
Qed.

(** X8: a stored document is turned into a response exactly when it is
    listable: each field that is present has the type the response declares
    (a null or a list in a [str] field is not accepted, and a [title_ko]
    stored as null is not replaced by [title_en]); otherwise the constructor
    raises its validation error. *)
Theorem toResponse_succeeds_iff_listable parse_datetime (it : document) :
  ((∃ resp, toResponse parse_datetime it = Ok resp) ↔ listable parse_datetime it = true)
  ∧ (toResponse parse_datetime it = Raise INVALID ↔ listable parse_datetime it = false)
  ∧ toResponse no_datetime null_title_document = Raise INVALID.
Proof.
  pose proof (toResponse_checks parse_datetime it) as H.
  destruct (toResponse parse_datetime it) as [resp|e].
  - rewrite H. repeat split; eauto; discriminate.
  - destruct H as [-> ->]. repeat split; try done. by intros [? ?].
Qed.

(** X9: in a response, a field missing from the stored document takes its
    default: [source] and [summary_ko] the empty string, [sentiment]
    "neutral", [title_ko] the empty string when [title_en] is missing too,
    [published_at] and [ticker] [None]. *)
Theorem toResponse_defaults parse_datetime (it : document) (resp : NewsResponse.t) :
  toResponse parse_datetime it = Ok resp →
  (fields it !! "source" = None → NewsResponse.source resp = [])
  ∧ (fields it !! "summary_ko" = None → NewsResponse.summary_ko resp = [])
  ∧ (fields it !! "sentiment" = None → NewsResponse.sentiment resp = u "neutral")
  ∧ (fields it !! "title_ko" = None → fields it !! "title_en" = None →
       NewsResponse.title_ko resp = [])
  ∧ (fields it !! "published_at" = None → NewsResponse.published_at resp = None)
  ∧ (fields it !! "ticker" = None → NewsResponse.ticker resp = None).
Proof.
  intros H. apply toResponse_fields in H
    as (_ & Hso & Hti & Hsu & Hse & Hpu & _ & Htk).
  unfold get, get_or in *.
  repeat split.
  - intros Hno. rewrite Hno in Hso. congruence.
  - intros Hno. rewrite Hno in Hsu. congruence.
  - intros Hno. rewrite Hno in Hse. change (u "neutral") with NEUTRAL. congruence.
  - intros Hko Hen. rewrite Hko, Hen in Hti. congruence.
  - intros Hno. rewrite Hno in Hpu. simpl in Hpu. congruence.
  - intros Hno. rewrite Hno in Htk.
    destruct (NewsResponse.ticker resp); simpl in Htk; by simplify_eq.
Qed.

(** ** Listing and ingesting together *)

Lemma map_outcome_checks parse_datetime (items : list document) :
  match map_outcome (toResponse parse_datetime) items with
  | Ok rs =>
      forallb (listable parse_datetime) items = true
      ∧ NewsResponse.id <$> rs = (fun it => str_oid (_id it)) <$> items
  | Raise e => e = INVALID ∧ forallb (listable parse_datetime) items = false
  end.
Proof.
  induction items as [|it r IH]; cbn [map_outcome forallb]; [done|].
  pose proof (toResponse_checks parse_datetime it) as H.
  destruct (toResponse parse_datetime it) as [resp|e] eqn:Hit.
  - rewrite H. cbn [andb].
    destruct (map_outcome (toResponse parse_datetime) r) as [rs|e]; [|done].
    destruct IH as [-> IH]. split; [done|]. rewrite !fmap_cons, IH.
    by apply toResponse_fields in Hit as (-> & _).
  - by destruct H as [-> ->].
Qed.

Lemma list_news_faulty parse_datetime (limit : Z) (sentiment ticker : option pystr)
    (w : World) (d : Database) (msg : pystr) :
  db w = Some d → fault d = Some msg →
  list_news parse_datetime limit sentiment ticker w
  = (Raise (Exception msg),
     with_call (GetDocuments NEWS (news_filter sentiment ticker) limit) w).
Proof.
  intros Hdb Hfault.
  unfold list_news, get_documents, driver, log_call, modify, gets, bind.
  rewrite Hdb. change (db (with_call _ w)) with (db w). by rewrite Hdb, Hfault.
Qed.

(** X6: over a live connection whose "news" collection holds fewer than
    [limit] documents, all of them listable, ingesting any payload and then
    listing without filters yields, after the responses already there, the
    response of that payload: its source, title, timestamp and ticker as
    given, its stored summary, sentiment "neutral", an empty tag list, and
    the identifier the ingest returned. *)
Theorem ingest_then_list parse_datetime (payload : RawArticle.t) (limit : Z)
    (w : World) (d : Database) (rs0 : list NewsResponse.t) :
  db w = Some d → fault d = None →
  (length (news_of w) < Z.to_nat limit)%nat →
  map_outcome (toResponse parse_datetime) (news_of w) = Ok rs0 →
  ∃ r w1 w2,
    ingest_article payload w = (Ok r, w1)
    ∧ list_news parse_datetime limit None None w1
      = (Ok (rs0 ++ [{| NewsResponse.id := IngestResult.id r;
                        NewsResponse.source := RawArticle.source payload;
                        NewsResponse.title_ko := RawArticle.title payload;
                        NewsResponse.summary_ko := stored_summary payload;
                        NewsResponse.sentiment := u "neutral";
                        NewsResponse.published_at := RawArticle.published_at payload;
                        NewsResponse.tags := Some [];
                        NewsResponse.ticker := RawArticle.ticker payload |}]), w2).
Proof.
  intros Hdb Hfault Hlen Hrs0.
  eexists _, _, _. split; [by apply ingest_article_connected|].
  erewrite list_news_connected; [|reflexivity|exact Hfault].
  rewrite (news_of_after_ingest _ _ _ Hdb).
  change (news_filter None None) with (∅ : dict).
  rewrite filter_matches_empty, take_ge by (rewrite length_app; simpl; lia).
  rewrite (map_outcome_app _ _ _ _ Hrs0).
  cbn [map_outcome]. by rewrite toResponse_to_document.
Qed.

(** X7: a document stored by [ingest_article] matches the filter of a
    listing exactly when the sentiment parameter, if supplied and non-empty,
    is "neutral", and the ticker parameter, if supplied and non-empty, is the
    payload's ticker. *)
Theorem ingested_document_matches (oid : ObjectId) (payload : RawArticle.t)
    (sentiment ticker : option pystr) :
  matches (news_filter sentiment ticker) (stored_document oid payload) = true
  ↔ (∀ s, sentiment = Some s → s ≠ [] → s = u "neutral")
    ∧ (∀ t, ticker = Some t → t ≠ [] → RawArticle.ticker payload = Some t).
Proof.
  unfold matches, stored_document. rewrite bool_decide_eq_true, map_subseteq_spec.
  simpl.
  destruct (to_document_lookup (toStoredArticle payload))
    as (_ & _ & _ & _ & _ & Hse & _ & _ & Htk).
  split.
  - intros H. split.
    + intros s -> Hs.
      assert (Hf : news_filter (Some s) ticker !! "sentiment" = Some (VStr s)).
      { apply news_filter_lookup. left. eauto. }
      apply H in Hf. rewrite Hse in Hf. by injection Hf.
    + intros t -> Ht.
      assert (Hf : news_filter sentiment (Some t) !! "ticker" = Some (VStr t)).
      { apply news_filter_lookup. right. eauto. }
      apply H in Hf. rewrite Htk in Hf. simpl in Hf.
      destruct (RawArticle.ticker payload); simpl in Hf; by simplify_eq.
  - intros [Hs Ht] k v Hk.
    apply news_filter_lookup in Hk
      as [(-> & s & Hsome & Hne & ->)|(-> & t & Hsome & Hne & ->)].
    + rewrite Hse. by rewrite (Hs s Hsome Hne).
    + rewrite Htk. simpl. by rewrite (Ht t Hsome Hne).
Qed.

(** X10: over a live connection a listing succeeds or fails as a whole.
    When every selected document is listable it returns one response per
    document, in storage order, each under the string form of its
    document's identifier; when one is not, the request raises the
    validation error (status 500) and returns no partial list. *)
Theorem list_news_all_or_nothing parse_datetime (limit : Z)
    (sentiment ticker : option pystr) (w : World) (d : Database) :
  db w = Some d → fault d = None →
  let items := take (Z.to_nat limit)
                 (List.filter (matches (news_filter sentiment ticker)) (news_of w)) in
  match fst (list_news parse_datetime limit sentiment ticker w) with
  | Ok rs =>
      forallb (listable parse_datetime) items = true
      ∧ length rs = length items
      ∧ NewsResponse.id <$> rs = (fun it => str_oid (_id it)) <$> items
  | Raise e =>
      forallb (listable parse_datetime) items = false
      ∧ e = INVALID
      ∧ http_status (fst (list_news parse_datetime limit sentiment ticker w)) = 500%Z
  end.
Proof.
  intros Hdb Hfault items.
  rewrite (list_news_connected _ _ _ _ _ d Hdb Hfault). cbn [fst]. fold items.
  pose proof (map_outcome_checks parse_datetime items) as H.
  destruct (map_outcome (toResponse parse_datetime) items) as [rs|e].
  - destruct H as [H1 H2]. split; [done|]. split; [|done].
    apply (f_equal length) in H2. by rewrite !length_fmap in H2.
  - by destruct H as [-> ->].
Qed.

(** X11: when the driver raises over a live handle, both handlers let the
    error through (status 500): the store is left as it was and exactly one
    storage call has been recorded, so nothing is retried. *)
Theorem driver_errors_propagate parse_datetime (limit : Z)
    (sentiment ticker : option pystr) (payload : RawArticle.t)
    (w : World) (d : Database) (msg : pystr) :
  db w = Some d → fault d = Some msg →
  list_news parse_datetime limit sentiment ticker w
  = (Raise (Exception msg),
     with_call (GetDocuments NEWS (news_filter sentiment ticker) limit) w)
  ∧ ingest_article payload w
    = (Raise (Exception msg),
       with_call (CreateDocument NEWS (toStoredArticle payload)) w)
  ∧ http_status (fst (list_news parse_datetime limit sentiment ticker w)) = 500%Z
  ∧ http_status (fst (ingest_article payload w)) = 500%Z
  ∧ db (snd (ingest_article payload w)) = db w
  ∧ calls (snd (ingest_article payload w))
    = calls w ++ [CreateDocument NEWS (toStoredArticle payload)].
Proof.
  intros Hdb Hfault.
  rewrite (list_news_faulty _ _ _ _ _ _ _ Hdb Hfault),
    (ingest_article_faulty _ _ _ _ Hdb Hfault).
  by repeat split.
Qed.

(** X12: a successful ingest writes to the "news" collection only: the new
    document is appended after the documents already there, every other
    collection and the environment are as before, and exactly one storage
    call, the write of the built article, has been recorded. *)
Theorem ingest_footprint (payload : RawArticle.t) (w : World) (d : Database) :
  db w = Some d → fault d = None →
  ∃ d',
    db (snd (ingest_article payload w)) = Some d'
    ∧ collection d' NEWS
      = collection d NEWS ++ [stored_document (next_oid d) payload]
    ∧ (∀ name, name ≠ NEWS → collection d' name = collection d name)
    ∧ fault d' = None
    ∧ environ (snd (ingest_article payload w)) = environ w
    ∧ calls (snd (ingest_article payload w))
      = calls w ++ [CreateDocument NEWS (toStoredArticle payload)].
Proof.
  intros Hdb Hfault. rewrite (ingest_article_connected _ _ _ Hdb Hfault).
  eexists. split; [reflexivity|]. unfold collection. simpl.
  split; [by rewrite lookup_insert_eq|].
  split; [|done].
  intros name Hne. by rewrite lookup_insert_ne.
Qed.

(** ** Status codes *)

Lemma validate_RawArticle_raises parse_datetime (body : dict) (e : exn) :
  validate_RawArticle parse_datetime body = Raise e → e = RequestValidationError.
Proof.
  unfold validate_RawArticle.
  destruct (body !! "url") as [[]|]; try (by intros [= <-]).
  destruct (body !! "source") as [[]|]; try (by intros [= <-]).
  destruct (body !! "title") as [[]|]; try (by intros [= <-]).
  destruct (as_opt_str (get body "content")); try (by intros [= <-]).
  destruct (as_opt_datetime parse_datetime _); try (by intros [= <-]).
  destruct (as_opt_str (get body "ticker")); by intros [= <-].
Qed.

Lemma ingest_article_status (payload : RawArticle.t) (w : World) :
  http_status (fst (ingest_article payload w))
  = match db w with
    | Some d => match fault d with None => 200 | Some _ => 500 end
    | None => 500
    end%Z.
Proof.
  destruct (db w) as [d|] eqn:Hdb; [destruct (fault d) as [msg|] eqn:Hf|].
  - by rewrite (ingest_article_faulty _ _ _ _ Hdb Hf).
  - by rewrite (ingest_article_connected _ _ _ Hdb Hf).
  - by rewrite (ingest_article_offline _ _ Hdb).
Qed.

(** ** More on diagnostics *)

Lemma test_database_depends (w1 w2 : World) :
  db w1 = db w2 → environ w1 = environ w2 →
  fst (test_database w1) = fst (test_database w2).
Proof.
  intros Hdb Henv.
  destruct (db w1) as [d|] eqn:Hdb1; [destruct (fault d) as [msg|] eqn:Hf|];
    symmetry in Hdb.
  - rewrite (test_database_faulty _ _ _ Hdb1 Hf), (test_database_faulty _ _ _ Hdb Hf).
    by rewrite Henv.
  - rewrite (test_database_working _ _ Hdb1 Hf), (test_database_working _ _ Hdb Hf).
    by rewrite Henv.
  - by rewrite (test_database_offline _ Hdb1), (test_database_offline _ Hdb).
Qed.

Lemma test_database_world (w : World) :
  db (snd (test_database w)) = db w
  ∧ environ (snd (test_database w)) = environ w
  ∧ calls (snd (test_database w))
    = calls w ++ match db w with Some _ => [ListCollectionNames] | None => [] end.
Proof.
  destruct (db w) as [d|] eqn:Hdb; [destruct (fault d) as [msg|] eqn:Hf|].
  - by rewrite (test_database_faulty _ _ _ Hdb Hf).
  - by rewrite (test_database_working _ _ Hdb Hf).
  - rewrite (test_database_offline _ Hdb). by rewrite app_nil_r.
Qed.

(** X14: with a connection handle, [database_url] reads "✅ Set" exactly when
    DATABASE_URL is set to a non-empty string and "❌ Not Set" otherwise, and
    [database_name] is the value of DATABASE_NAME, or "❌ Not Set" when that
    is unset or empty; without a handle both fields stay [None], whatever
    the environment holds. *)
Theorem diagnostics_environment (w : World) :
  ∃ resp,
    fst (test_database w) = Ok resp
    ∧ Diagnostics.backend resp = u "✅ Running"
    ∧ match db w with
      | None =>
          Diagnostics.database_url resp = None
          ∧ Diagnostics.database_name resp = None
      | Some _ =>
          Diagnostics.database_url resp
          = Some (match environ w !! "DATABASE_URL" with
                  | Some (_ :: _) => u "✅ Set"
                  | _ => u "❌ Not Set"
                  end)
          ∧ Diagnostics.database_name resp
            = Some (match environ w !! "DATABASE_NAME" with
                    | Some (c :: name) => c :: name
                    | _ => u "❌ Not Set"
                    end)
      end.
Proof.
  destruct (db w) as [d|] eqn:Hdb; [destruct (fault d) as [msg|] eqn:Hf|].
  - rewrite (test_database_faulty _ _ _ Hdb Hf). eexists. split; [reflexivity|].
    split; [reflexivity|]. cbn.
    by destruct (environ w !! "DATABASE_URL") as [[|]|],
      (environ w !! "DATABASE_NAME") as [[|]|].
  - rewrite (test_database_working _ _ Hdb Hf). eexists. split; [reflexivity|].
    split; [reflexivity|]. cbn.
    by destruct (environ w !! "DATABASE_URL") as [[|]|],
      (environ w !! "DATABASE_NAME") as [[|]|].
  - rewrite (test_database_offline _ Hdb). eexists. by repeat split.
Qed.

(** X15: diagnostics only reads: it leaves the store and the environment as
    they were and records one storage call, the listing of collection names,
    when there is a handle and none otherwise; its answer depends on the
    handle and the environment alone, so asking again gives the same
    answer. *)
Theorem diagnostics_read_only (w : World) :
  db (snd (test_database w)) = db w
  ∧ environ (snd (test_database w)) = environ w
  ∧ calls (snd (test_database w))
    = calls w ++ match db w with Some _ => [ListCollectionNames] | None => [] end
  ∧ fst (test_database (snd (test_database w))) = fst (test_database w).
Proof.
  destruct (test_database_world w) as (Hdb & Henv & Hcalls).
  repeat split; try done. by apply test_database_depends.
Qed.

(** ** Sample runs of the further properties *)

Example summary_cut_at_500 :
  length (stored_summary long_payload) = 500%nat
  ∧ stored_summary long_payload = replicate 499 0x61 ++ [0x20].
Proof. vm_compute. done. Qed.

Example configured_diagnostics :
  (fun r => match r with
            | Ok resp => Some (Diagnostics.database_url resp,
                               Diagnostics.database_name resp,
                               Diagnostics.collections resp)
            | Raise _ => None
            end) (fst (test_database configured_world))
  = Some (Some (u "✅ Set"), Some (u "❌ Not Set"), [u "news"]).
Proof. vm_compute. reflexivity. Qed.

Lemma summary_of_clean_content_witness :
  RawArticle.content (sample_payload (Some (u "hello"))) = Some (u "hello")
  ∧ u "hello" ≠ []
  ∧ (length (u "hello") ≤ 500)%nat
  ∧ stored_summary (sample_payload (Some (u "hello"))) = u "hello".
Proof.
  split; [reflexivity|]. split; [discriminate|]. split; [vm_compute; lia|].
  apply (summary_of_clean_content (sample_payload (Some (u "hello"))) (u "hello")).
  - reflexivity.
  - discriminate.
  - intros c [= <-]. reflexivity.
  - intros c [= <-]. reflexivity.
  - vm_compute. lia.
Defined.

Lemma summary_ignores_padding_witness :
  Forall (fun c => isspace c = true) (u "  ")
  ∧ Forall (fun c => isspace c = true) (u " ")
  ∧ stored_summary (sample_payload (Some (u "  " ++ u "hello" ++ u " ")))
    = stored_summary (sample_payload (Some (u "hello"))).
Proof.
  assert (H1 : Forall (fun c => isspace c = true) (u "  "))
    by (repeat constructor).
  assert (H2 : Forall (fun c => isspace c = true) (u " "))
    by (repeat constructor).
  split; [exact H1|]. split; [exact H2|].
  exact (summary_ignores_padding
           (sample_payload (Some (u "  " ++ u "hello" ++ u " ")))
           (sample_payload (Some (u "hello")))
           (u "  ") (u "hello") (u " ") eq_refl eq_refl H1 H2).
Defined.

Lemma ingest_then_list_witness :
  db fresh_world = Some empty_database
  ∧ fault empty_database = None
  ∧ (length (news_of fresh_world) < Z.to_nat 20)%nat
  ∧ map_outcome (toResponse no_datetime) (news_of fresh_world) = Ok []
  ∧ ∃ r w1 w2 resp,
      ingest_article (sample_payload None) fresh_world = (Ok r, w1)
      ∧ list_news no_datetime 20 None None w1 = (Ok [resp], w2)
      ∧ NewsResponse.summary_ko resp = NO_SUMMARY
      ∧ NewsResponse.title_ko resp = u "T".
Proof.
  assert (Hlen : (length (news_of fresh_world) < Z.to_nat 20)%nat)
    by (vm_compute; lia).
  split; [reflexivity|]. split; [reflexivity|]. split; [exact Hlen|].
  split; [reflexivity|].
  destruct (ingest_then_list no_datetime (sample_payload None) 20 fresh_world
              empty_database [] eq_refl eq_refl Hlen eq_refl)
    as (r & w1 & w2 & H1 & H2).
  exists r, w1, w2. eexists. split; [exact H1|]. split; [exact H2|].
  split; reflexivity.
Defined.

Lemma toResponse_defaults_witness :
  toResponse no_datetime bare_document = Ok bare_response
  ∧ NewsResponse.source bare_response = []
  ∧ NewsResponse.summary_ko bare_response = []
  ∧ NewsResponse.sentiment bare_response = u "neutral"
  ∧ NewsResponse.title_ko bare_response = [].
Proof.
  assert (H : toResponse no_datetime bare_document = Ok bare_response)
    by (vm_compute; reflexivity).
  destruct (toResponse_defaults no_datetime bare_document bare_response H)
    as (H1 & H2 & H3 & H4 & _).
  split; [exact H|].
  split; [exact (H1 eq_refl)|]. split; [exact (H2 eq_refl)|].
  split; [exact (H3 eq_refl)|]. exact (H4 eq_refl eq_refl).
Defined.

Lemma list_news_all_or_nothing_witness :
  db seeded_world = Some seeded_database
  ∧ fault seeded_database = None
  ∧ match fst (list_news no_datetime 20 None None seeded_world) with
    | Ok rs => length rs = 1%nat
    | Raise _ => False
    end.
Proof.
  split; [reflexivity|]. split; [reflexivity|].
  pose proof (list_news_all_or_nothing no_datetime 20 None None seeded_world
                seeded_database eq_refl eq_refl) as H.
  cbv zeta in H.
  destruct (fst (list_news no_datetime 20 None None seeded_world)) as [rs|e].
  - destruct H as (_ & H & _). exact H.
  - destruct H as (H & _). vm_compute in H. discriminate H.
Defined.

Lemma driver_errors_propagate_witness :
  db faulty_world = Some faulty_database
  ∧ fault faulty_database = Some (u "timed out")
  ∧ ingest_article (sample_payload None) faulty_world
    = (Raise (Exception (u "timed out")),
       with_call (CreateDocument NEWS (toStoredArticle (sample_payload None)))
         faulty_world).
Proof.
  split; [reflexivity|]. split; [reflexivity|].
  exact (proj1 (proj2 (driver_errors_propagate no_datetime 20 None None
                         (sample_payload None) faulty_world faulty_database
                         (u "timed out") eq_refl eq_refl))).
Defined.

Lemma ingest_footprint_witness :
  db fresh_world = Some empty_database
  ∧ fault empty_database = None
  ∧ ∃ d',
      db (snd (ingest_article (sample_payload None) fresh_world)) = Some d'
      ∧ collection d' NEWS
        = collection empty_database NEWS
          ++ [stored_document (next_oid empty_database) (sample_payload None)].
Proof.
  split; [reflexivity|]. split; [reflexivity|].
  destruct (ingest_footprint (sample_payload None) fresh_world empty_database
              eq_refl eq_refl) as (d' & H1 & H2 & _).
  exists d'. split; [exact H1 | exact H2].
Defined.

(** ** The listing and its response mapping, in full *)

Lemma map_outcome_Forall2 {A B} (f : A → outcome B) (xs : list A) (rs : list B) :
  map_outcome f xs = Ok rs → Forall2 (fun x r => f x = Ok r) xs rs.
Proof.
  revert rs. induction xs as [|x r IH]; intros rs; cbn [map_outcome].
  - intros [= <-]. constructor.
  - destruct (f x) as [y|e] eqn:Hy; [|discriminate].
    destruct (map_outcome f r) as [ys|e]; [|discriminate].
    intros [= <-]. constructor; [done | by apply IH].
Qed.

(** C2 (as amended): the filter holds exactly the parameters that are
    supplied and non-empty, each as an exact-match entry.  Over a live
    connection the listing selects the first [limit] stored documents that
    match the filter: with a non-empty sentiment parameter every selected
    document, and every response returned, has exactly that sentiment; with
    no non-empty parameter the first [limit] documents are selected whatever
    their fields hold.  When every selected document has the field types the
    response model declares, all of them are returned, one response each in
    storage order; when one has not, the request raises the validation error
    instead. *)
Theorem C2_list_filter parse_datetime (limit : Z) (sentiment ticker : option pystr)
    (w : World) (d : Database) :
  db w = Some d → fault d = None →
  (∀ k v, news_filter sentiment ticker !! k = Some v
          ↔ (k = "sentiment" ∧ ∃ s, sentiment = Some s ∧ s ≠ [] ∧ v = VStr s)
            ∨ (k = "ticker" ∧ ∃ t, ticker = Some t ∧ t ≠ [] ∧ v = VStr t))
  ∧ ∃ items,
      list_news parse_datetime limit sentiment ticker w
      = (map_outcome (toResponse parse_datetime) items,
         with_call (GetDocuments NEWS (news_filter sentiment ticker) limit) w)
      ∧ items = take (Z.to_nat limit)
                  (List.filter (matches (news_filter sentiment ticker)) (news_of w))
      ∧ (∀ s, sentiment = Some s → s ≠ [] →
           Forall (fun it => fields it !! "sentiment" = Some (VStr s)) items
           ∧ ∀ rs, map_outcome (toResponse parse_datetime) items = Ok rs →
                   Forall (fun r => NewsResponse.sentiment r = s) rs)
      ∧ (∀ t, ticker = Some t → t ≠ [] →
           Forall (fun it => fields it !! "ticker" = Some (VStr t)) items)
      ∧ (truthy_opt sentiment = false → truthy_opt ticker = false →
           items = take (Z.to_nat limit) (news_of w))
      ∧ (forallb (listable parse_datetime) items = true →
           ∃ rs, list_news parse_datetime limit sentiment ticker w
                 = (Ok rs,
                    with_call (GetDocuments NEWS (news_filter sentiment ticker) limit) w)
                 ∧ Forall2 (fun it r => toResponse parse_datetime it = Ok r) items rs)
      ∧ (forallb (listable parse_datetime) items = false →
           list_news parse_datetime limit sentiment ticker w
           = (Raise INVALID,
              with_call (GetDocuments NEWS (news_filter sentiment ticker) limit) w)).
Proof.
  intros Hdb Hfault. split; [apply news_filter_lookup|].
  eexists. split; [by apply (list_news_connected _ _ _ _ _ d)|].
  split; [reflexivity|].
  assert (Hall : ∀ k v, news_filter sentiment ticker !! k = Some v →
            Forall (fun it => fields it !! k = Some v)
              (take (Z.to_nat limit)
                 (List.filter (matches (news_filter sentiment ticker)) (news_of w)))).
  { intros k v Hk. apply Forall_take, Forall_forall. intros it Hit.
    apply list_elem_of_In, filter_In in Hit as [_ Hm].
    by apply (matches_lookup _ _ _ _ Hm). }
  split; [|split; [|split; [|split]]].
  - intros s -> Hs.
    assert (Hitems := Hall "sentiment" (VStr s)
              (proj2 (news_filter_lookup _ _ _ _) (or_introl (conj eq_refl
                 (ex_intro _ s (conj eq_refl (conj Hs eq_refl))))))).
    split; [done|]. intros rs Hrs.
    eapply map_outcome_Forall; [|exact Hitems|exact Hrs].
    intros it r Hit Hr. simpl in Hit.
    apply toResponse_fields in Hr as (_ & _ & _ & _ & Hse & _).
    unfold get_or in Hse. rewrite Hit in Hse. congruence.
  - intros t -> Ht.
    apply (Hall "ticker" (VStr t)), news_filter_lookup. right. eauto.
  - intros Hs Ht. f_equal.
    assert (news_filter sentiment ticker = ∅) as ->; [|apply filter_matches_empty].
    unfold news_filter. by destruct sentiment as [[|]|], ticker as [[|]|].
  - intros Hl. rewrite (list_news_connected _ _ _ _ _ d Hdb Hfault).
    match goal with |- context [map_outcome ?f ?xs] =>
      pose proof (map_outcome_checks parse_datetime xs) as H;
      destruct (map_outcome f xs) as [rs|e] eqn:Hrs end.
    + exists rs. split; [done|]. by apply map_outcome_Forall2.
    + destruct H as [_ H]. congruence.
  - intros Hl. rewrite (list_news_connected _ _ _ _ _ d Hdb Hfault).
    match goal with |- context [map_outcome ?f ?xs] =>
      pose proof (map_outcome_checks parse_datetime xs) as H;
      destruct (map_outcome f xs) as [rs|e] eqn:Hrs end.
    + destruct H as [H _]. congruence.
    + by destruct H as [-> _].
Qed.

(** C2, as first stated, puts every supplied parameter into the filter and
    returns all documents when there is no filter.  A sentiment parameter
    supplied as the empty string leaves the filter empty, and the listing
    then returns a document whose sentiment is not the empty string; and
    over a store of two documents, the second with [title_ko] stored as
    null, the listing without filters returns no document: it raises. *)
Lemma C2_counterexample :
  (news_filter (Some []) None !! "sentiment" = None
   ∧ news_filter (Some []) None = ∅
   ∧ ∃ resp w',
       list_news no_datetime 20 (Some []) None seeded_world = (Ok [resp], w')
       ∧ NewsResponse.sentiment resp = u "neutral"
       ∧ NewsResponse.sentiment resp ≠ [])
  ∧ (news_of mixed_world = [foreign_document; null_title_document]
     ∧ news_filter None None = ∅
     ∧ fst (list_news no_datetime 20 None None mixed_world) = Raise INVALID
     ∧ http_status (fst (list_news no_datetime 20 None None mixed_world)) = 500%Z).
Proof.
  split.
  - split; [reflexivity|]. split; [reflexivity|].
    eexists _, _. split; [vm_compute; reflexivity|].
    split; [reflexivity|]. vm_compute. discriminate.
  - split; [reflexivity|]. split; [reflexivity|].
    split; vm_compute; reflexivity.
Qed.

Lemma C2_list_filter_witness :
  db seeded_world = Some seeded_database
  ∧ fault seeded_database = None
  ∧ ∃ items rs,
      items = take (Z.to_nat 20)
                (List.filter (matches (news_filter (Some (u "neutral")) None))
                   (news_of seeded_world))
      ∧ Forall (fun it => fields it !! "sentiment" = Some (VStr (u "neutral"))) items
      ∧ fst (list_news no_datetime 20 (Some (u "neutral")) None seeded_world) = Ok rs
      ∧ Forall2 (fun it r => toResponse no_datetime it = Ok r) items rs.
Proof.
  split; [reflexivity|]. split; [reflexivity|].
  destruct (C2_list_filter no_datetime 20 (Some (u "neutral")) None seeded_world
              seeded_database eq_refl eq_refl)
    as (_ & items & _ & H2 & H3 & _ & _ & H6 & _).
  assert (Hl : forallb (listable no_datetime) items = true)
    by (rewrite H2; vm_compute; reflexivity).
  destruct (H6 Hl) as (rs & Hrs & HF).
  exists items, rs. split; [exact H2|].
  split; [apply (H3 (u "neutral") eq_refl); discriminate|].
  split; [by rewrite Hrs | exact HF].
Defined.

(** C5 (as amended): a response is built from every stored document whose
    present fields have the types the response model declares, and from no
    other.  In it [title_ko] is the stored [title_en] when the [title_ko]
    key is missing, [tags] is the empty list when the [tags] key is
    missing, and every field that is present is copied as it is ([_id]
    through [str], [published_at] through the timestamp type).  A field
    stored as null is present: a null [title_ko] is not replaced by
    [title_en] and the model rejects it, and a null [tags] is passed on as
    [None]. *)
Theorem C5_response_mapping parse_datetime (it : document) :
  (listable parse_datetime it = true →
     ∃ resp,
       toResponse parse_datetime it = Ok resp
       ∧ (fields it !! "title_ko" = None →
            ∀ v, fields it !! "title_en" = Some v → v = VStr (NewsResponse.title_ko resp))
       ∧ (fields it !! "tags" = None → NewsResponse.tags resp = Some [])
       ∧ NewsResponse.id resp = str_oid (_id it)
       ∧ (∀ v, fields it !! "title_ko" = Some v → v = VStr (NewsResponse.title_ko resp))
       ∧ (∀ v, fields it !! "tags" = Some v → v = opt_value VList (NewsResponse.tags resp))
       ∧ (∀ v, fields it !! "source" = Some v → v = VStr (NewsResponse.source resp))
       ∧ (∀ v, fields it !! "summary_ko" = Some v →
            v = VStr (NewsResponse.summary_ko resp))
       ∧ (∀ v, fields it !! "sentiment" = Some v → v = VStr (NewsResponse.sentiment resp))
       ∧ (∀ v, fields it !! "ticker" = Some v →
            v = opt_value VStr (NewsResponse.ticker resp))
       ∧ (∀ v, fields it !! "published_at" = Some v →
            as_opt_datetime parse_datetime v = Ok (NewsResponse.published_at resp))
       ∧ (∀ t, fields it !! "published_at" = Some (VDate t) →
            NewsResponse.published_at resp = Some t)
       ∧ (fields it !! "tags" = Some VNone → NewsResponse.tags resp = None))
  ∧ (listable parse_datetime it = false → toResponse parse_datetime it = Raise INVALID)
  ∧ (fields it !! "title_ko" = Some VNone → toResponse parse_datetime it = Raise INVALID).
Proof.
  pose proof (toResponse_checks parse_datetime it) as Hc.
  split; [|split].
  - intros Hl. destruct (toResponse parse_datetime it) as [resp|e] eqn:H;
      [|destruct Hc; congruence].
    exists resp. split; [done|].
    apply toResponse_fields in H
      as (Hid & Hso & Hti & Hsu & Hse & Hpu & Hta & Htk).
    unfold get, get_or in *.
    repeat split; try done.
    + intros Hko v Hen. rewrite Hko, Hen in Hti. congruence.
    + intros Hno. rewrite Hno in Hta.
      destruct (NewsResponse.tags resp); simpl in Hta; by simplify_eq.
    + intros v Hv. rewrite Hv in Hti. congruence.
    + intros v Hv. rewrite Hv in Hta. congruence.
    + intros v Hv. rewrite Hv in Hso. congruence.
    + intros v Hv. rewrite Hv in Hsu. congruence.
    + intros v Hv. rewrite Hv in Hse. congruence.
    + intros v Hv. rewrite Hv in Htk. congruence.
    + intros v Hv. by rewrite Hv in Hpu.
    + intros t Hv. rewrite Hv in Hpu. simpl in Hpu. congruence.
    + intros Hv. rewrite Hv in Hta.
      destruct (NewsResponse.tags resp); simpl in Hta; by simplify_eq.
  - intros Hl. destruct (toResponse parse_datetime it) as [resp|e]; [congruence|].
    by destruct Hc as [-> _].
  - intros Hko. destruct (toResponse parse_datetime it) as [resp|e].
    + unfold listable in Hc. rewrite Hko in Hc. simpl in Hc.
      rewrite andb_false_r in Hc. discriminate.
    + by destruct Hc as [-> _].
Qed.

(** C5, as first stated, lets [title_ko] fall back to [title_en], and [tags]
    to the empty list, whenever the stored field is absent.  A document
    whose [title_ko] is stored as null beside a [title_en] gets no fallback:
    the constructor raises; and one whose [tags] is stored as null gets
    [tags = None] in its response, not the empty list. *)
Lemma C5_null_counterexample :
  (fields null_title_document !! "title_ko" = Some VNone
   ∧ fields null_title_document !! "title_en" = Some (VStr (u "Title"))
   ∧ toResponse no_datetime null_title_document = Raise INVALID)
  ∧ (fields null_tags_document !! "tags" = Some VNone
     ∧ ∃ resp,
         toResponse no_datetime null_tags_document = Ok resp
         ∧ NewsResponse.tags resp = None
         ∧ NewsResponse.tags resp ≠ Some []).
Proof.
  split.
  - split; [reflexivity|]. split; [reflexivity|]. vm_compute. reflexivity.
  - split; [reflexivity|]. eexists. split; [vm_compute; reflexivity|].
    split; [reflexivity|]. discriminate.
Qed.

Lemma C5_response_mapping_witness :
  listable no_datetime foreign_document = true
  ∧ fields foreign_document !! "title_ko" = None
  ∧ fields foreign_document !! "title_en" = Some (VStr (u "Title"))
  ∧ fields foreign_document !! "tags" = None
  ∧ ∃ resp,
      toResponse no_datetime foreign_document = Ok resp
      ∧ VStr (u "Title") = VStr (NewsResponse.title_ko resp)
      ∧ NewsResponse.tags resp = Some [].
Proof.
  assert (Hl : listable no_datetime foreign_document = true)
    by (vm_compute; reflexivity).
  destruct (C5_response_mapping no_datetime foreign_document) as (H & _).
  destruct (H Hl) as (resp & Hr & H1 & H2 & _).
  split; [exact Hl|]. split; [reflexivity|]. split; [reflexivity|].
  split; [reflexivity|].
  exists resp. split; [exact Hr|].
  split; [apply H1; reflexivity | apply H2; reflexivity].
Defined.

(** ** The stored summary, located in the content *)

(** X2: the stored summary is the placeholder when the content is absent or
    all whitespace.  Otherwise it is the contiguous piece of the content
    that starts at its first character that is not whitespace and has at
    most 500 characters; when it has fewer than 500 it ends at the last
    character that is not whitespace, only whitespace following it. *)
Theorem summary_is_piece_of_content (payload : RawArticle.t) :
  (Forall (fun c => isspace c = true) (default [] (RawArticle.content payload)) →
     stored_summary payload = NO_SUMMARY)
  ∧ (¬ Forall (fun c => isspace c = true) (default [] (RawArticle.content payload)) →
       ∃ pre post,
         default [] (RawArticle.content payload) = pre ++ stored_summary payload ++ post
         ∧ Forall (fun c => isspace c = true) pre
         ∧ stored_summary payload ≠ []
         ∧ (∀ c, head (stored_summary payload) = Some c → isspace c = false)
         ∧ (length (stored_summary payload) ≤ 500)%nat
         ∧ ((length (stored_summary payload) < 500)%nat →
              Forall (fun c => isspace c = true) post
              ∧ ∀ c, last (stored_summary payload) = Some c → isspace c = false)).
Proof.
  rewrite stored_summary_eq.
  set (content := default [] (RawArticle.content payload)).
  split.
  - intros Hall. apply strip_nil in Hall. by rewrite Hall.
  - intros Hnot.
    destruct (strip_spec content) as (pre & post & Hc & Hpre & Hpost & Hh & Hl).
    assert (Hne : strip content ≠ []) by (by rewrite strip_nil).
    assert (Ht : truthy (slice_to 500 (strip content)) = true)
      by (by destruct (strip content)).
    rewrite Ht. unfold slice_to.
    exists pre, (drop 500 (strip content) ++ post).
    split; [by rewrite (assoc_L (++) (take _ _)), take_drop|].
    split; [done|].
    split; [by destruct (strip content)|].
    split; [intros c Hc'; apply Hh; by destruct (strip content)|].
    split; [rewrite length_take; lia|].
    intros Hlen. rewrite length_take in Hlen.
    rewrite drop_ge, take_ge by lia. by split.
Qed.

(** ** Status codes of the two routes *)

Lemma list_news_status parse_datetime (limit : Z) (sentiment ticker : option pystr)
    (w : World) :
  http_status (fst (list_news parse_datetime limit sentiment ticker w))
  = match db w with
    | Some d =>
        match fault d with
        | None =>
            if forallb (listable parse_datetime)
                 (take (Z.to_nat limit)
                    (List.filter (matches (news_filter sentiment ticker)) (news_of w)))
            then 200 else 500
        | Some _ => 500
        end
    | None => 500
    end%Z.
Proof.
  destruct (db w) as [d|] eqn:Hdb; [destruct (fault d) as [msg|] eqn:Hf|].
  - by rewrite (list_news_faulty _ _ _ _ _ _ _ Hdb Hf).
  - rewrite (list_news_connected _ _ _ _ _ _ Hdb Hf). cbn [fst].
    match goal with |- context [map_outcome ?f ?xs] =>
      pose proof (map_outcome_checks parse_datetime xs) as H;
      destruct (map_outcome f xs) as [rs|e] end.
    + destruct H as [-> _]. done.
    + destruct H as [-> ->]. done.
  - by rewrite (list_news_offline _ _ _ _ _ Hdb).
Qed.

(** X13: the listing route answers 422, without running the handler, when a
    [limit] is supplied that does not read as an integer; otherwise it runs
    the handler with that limit, or with 20 when none is supplied, and
    answers 200 when the connection is live, the driver does not raise and
    every selected document is listable, 500 in every other case.  An
    ingest answers 200 exactly over a live connection whose driver does not
    raise, 500 otherwise; the ingest route adds 422 for a body that does not
    validate, whatever the state of the connection. *)
Theorem handler_status_codes (parse_int : pystr → option Z) parse_datetime
    (limit sentiment ticker : option pystr) (payload : RawArticle.t) (body : dict)
    (w : World) :
  match limit with
  | Some raw =>
      match parse_int raw with
      | None =>
          get_api_news parse_int parse_datetime limit sentiment ticker w
          = (Raise RequestValidationError, w)
          ∧ http_status
              (fst (get_api_news parse_int parse_datetime limit sentiment ticker w))
            = 422%Z
      | Some n =>
          get_api_news parse_int parse_datetime limit sentiment ticker w
          = list_news parse_datetime n sentiment ticker w
      end
  | None =>
      get_api_news parse_int parse_datetime limit sentiment ticker w
      = list_news parse_datetime 20 sentiment ticker w
  end
  ∧ (∀ n, http_status (fst (list_news parse_datetime n sentiment ticker w))
          = match db w with
            | Some d =>
                match fault d with
                | None =>
                    if forallb (listable parse_datetime)
                         (take (Z.to_nat n)
                            (List.filter (matches (news_filter sentiment ticker))
                               (news_of w)))
                    then 200 else 500
                | Some _ => 500
                end
            | None => 500
            end%Z)
  ∧ http_status (fst (ingest_article payload w))
    = match db w with
      | Some d => match fault d with None => 200 | Some _ => 500 end
      | None => 500
      end%Z
  ∧ http_status (fst (post_api_ingest parse_datetime body w))
    = match validate_RawArticle parse_datetime body with
      | Ok _ =>
          match db w with
          | Some d => match fault d with None => 200 | Some _ => 500 end
          | None => 500
          end
      | Raise _ => 422
      end%Z.
Proof.
  split; [|split; [|split]].
  - unfold get_api_news. destruct limit as [raw|]; [|done].
    by destruct (parse_int raw).
  - intros n. apply list_news_status.
  - apply ingest_article_status.
  - unfold post_api_ingest, bind, lift_outcome.
    destruct (validate_RawArticle parse_datetime body) as [p|e] eqn:Hv.
    + apply ingest_article_status.
    + by rewrite (validate_RawArticle_raises _ _ _ Hv).
Qed.

(** A listing asked with a limit that is no integer, over a working store. *)
Example get_api_news_bad_limit :
  get_api_news no_int no_datetime (Some (u "abc")) None None seeded_world
  = (Raise RequestValidationError, seeded_world).
Proof. reflexivity. Qed.
